(** * convert-cbz-to-epub: a shallow embedding of the converter and its properties

    The script walks an input folder, and turns every [.cbz] archive it finds
    into an EPUB: the archive is extracted into a temporary directory, every
    page image is normalised in place (palette to RGB, downscaled to a maximal
    height, re-encoded as JPEG), and the images are assembled into a book
    which is written under the output folder.

    The development follows [convert-cbz-to-epub.py] function by function:
    - strings and [os.path] (posixpath), as far as the script uses them;
    - Python's [int / int], [float * int] and [int(float)] over IEEE doubles;
    - the image normaliser [compress_images];
    - the document assembler [create_epub];
    - the archive converter [process_cbz] and the batch driver
      [process_folder], over an explicit world (temporary directories, output
      files, standard output) with exceptions. *)

From Stdlib Require Import ZArith List String Ascii Bool Lia Arith.
From Stdlib Require Import Sorting.Sorted Sorting.Permutation.
From Stdlib Require Import Floats.SpecFloat.
From Stdlib Require Import Numbers.DecimalString.
Import ListNotations.

Set Warnings "-register-all".

#[local] Open Scope string_scope.
#[local] Open Scope Z_scope.

(** ** Exceptions and results *)

Inductive exn : Type :=
| BadZipFile
| UnidentifiedImageError
| OSError (msg : string)
| ValueError (msg : string)
| ZeroDivisionError
| OverflowError.

Inductive result (A : Type) : Type :=
| Ok (a : A)
| Err (e : exn).
Arguments Ok {A} a.
Arguments Err {A} e.

(** ** Strings, as the script uses them *)

Module Str.

(** [c.lower()] on one character. File names are byte strings (UTF-8);
    only the ASCII capitals change. No character outside ASCII lowers to a
    letter of [.png], [.jpg], [.jpeg] or [.cbz], so the suffix tests below
    see what Python sees. *)
Definition lower_ascii (c : ascii) : ascii :=
  let n := nat_of_ascii c in
  if ((65 <=? n) && (n <=? 90))%nat then ascii_of_nat (n + 32) else c.

(** [s.lower()] *)
Fixpoint lower (s : string) : string :=
  match s with
  | EmptyString => EmptyString
  | String c r => String (lower_ascii c) (lower r)
  end.

(** [s.endswith(suffix)]: some tail of [s] is [suffix]. *)
Fixpoint endswith (s suffix : string) : bool :=
  if String.eqb s suffix then true
  else match s with
       | EmptyString => false
       | String _ r => endswith r suffix
       end.

(** [s.endswith(tuple)] *)
Definition endswith_any (s : string) (suffixes : list string) : bool :=
  existsb (endswith s) suffixes.

(** [s.startswith('/')] *)
Definition starts_with_slash (s : string) : bool :=
  match s with
  | String "/" _ => true
  | _ => false
  end.

(** [s.endswith('/')] *)
Fixpoint ends_with_slash (s : string) : bool :=
  match s with
  | EmptyString => false
  | String c EmptyString => Ascii.eqb c "/"
  | String _ r => ends_with_slash r
  end.

(** ['/' in s] *)
Fixpoint has_slash (s : string) : bool :=
  match s with
  | EmptyString => false
  | String c r => Ascii.eqb c "/" || has_slash r
  end.

(** [s.split('/')]: never empty, one more component than slashes. *)
Fixpoint split (s : string) : list string :=
  match s with
  | EmptyString => [EmptyString]
  | String c r =>
      if Ascii.eqb c "/" then EmptyString :: split r
      else match split r with
           | h :: t => String c h :: t
           | [] => [String c EmptyString]
           end
  end.

(** [s.rpartition(c)] when [c] occurs in [s]: the text before and after the
    last [c]. *)
Fixpoint rsplit_at (c : ascii) (s : string) : option (string * string) :=
  match s with
  | EmptyString => None
  | String a r =>
      match rsplit_at c r with
      | Some (before, after) => Some (String a before, after)
      | None => if Ascii.eqb a c then Some (EmptyString, r) else None
      end
  end.

(** The leading dots of a name, and what follows them. *)
Fixpoint span_dots (s : string) : string * string :=
  match s with
  | EmptyString => (EmptyString, EmptyString)
  | String c r =>
      if Ascii.eqb c "." then
        let (d, t) := span_dots r in (String c d, t)
      else (EmptyString, s)
  end.

(** ['.' in s] *)
Fixpoint has_dot (s : string) : bool :=
  match s with
  | EmptyString => false
  | String c r => Ascii.eqb c "." || has_dot r
  end.

End Str.

(** ** [os.path] on POSIX *)

Module Path.

(** [os.path.join(a, b)] *)
Definition join (a b : string) : string :=
  if Str.starts_with_slash b then b
  else if String.eqb a EmptyString || Str.ends_with_slash a then a ++ b
  else a ++ "/" ++ b.

(** [os.path.join] with several arguments: joined from the left. *)
Definition join_all (parts : list string) : string :=
  match parts with
  | [] => EmptyString
  | a :: p => fold_left join p a
  end.

(** [os.path.basename(p)]: what follows the last slash. *)
Definition basename (p : string) : string :=
  match Str.rsplit_at "/" p with
  | Some (_, name) => name
  | None => p
  end.

(** [os.path.splitext(p)]: the extension starts at the last dot of the last
    component, leading dots of that component not counted. *)
Definition splitext (p : string) : string * string :=
  let (head, name) :=
    match Str.rsplit_at "/" p with
    | Some (before, after) => (before ++ "/", after)
    | None => (EmptyString, p)
    end in
  let (dots, rest) := Str.span_dots name in
  match Str.rsplit_at "." rest with
  | Some (stem, ext) => (head ++ dots ++ stem, String "." ext)
  | None => (p, EmptyString)
  end.

(** The loop of [os.path.normpath] over the components. Components are
    pushed on [acc] in reverse. *)
Definition norm_step (absolute : bool) (acc : list string) (comp : string)
  : list string :=
  if String.eqb comp EmptyString || String.eqb comp "." then acc
  else if negb (String.eqb comp "..") then comp :: acc
  else match acc with
       | [] => if absolute then [] else [comp]
       | top :: below => if String.eqb top ".." then comp :: acc else below
       end.

(** The number of slashes [normpath] keeps in front: 0, 1, or 2 when the
    path starts with exactly two. *)
Definition initial_slashes (p : string) : nat :=
  match p with
  | String "/" (String "/" (String "/" _)) => 1
  | String "/" (String "/" _) => 2
  | String "/" _ => 1
  | _ => 0
  end%nat.

Definition norm_comps (p : string) : list string :=
  rev (fold_left (norm_step (negb (initial_slashes p =? 0)%nat)) (Str.split p) []).

(** [os.path.normpath(p)] *)
Definition normpath (p : string) : string :=
  if String.eqb p EmptyString then "."
  else
    let s := String.concat EmptyString (repeat "/" (initial_slashes p))
             ++ String.concat "/" (norm_comps p) in
    if String.eqb s EmptyString then "." else s.

(** [os.path.abspath(p)]; [cwd] is [os.getcwd()], an absolute path. *)
Definition abspath (cwd p : string) : string :=
  normpath (if Str.starts_with_slash p then p else join cwd p).

(** [os.path.commonprefix([l1, l2])] on two lists of components. *)
Fixpoint commonprefix (l1 l2 : list string) : list string :=
  match l1, l2 with
  | a :: r1, b :: r2 => if String.eqb a b then a :: commonprefix r1 r2 else []
  | _, _ => []
  end.

Definition nonempty (s : string) : bool := negb (String.eqb s EmptyString).

(** [os.path.relpath(path, start)] *)
Definition relpath (cwd path start : string) : result string :=
  if String.eqb path EmptyString then Err (ValueError "no path specified")
  else
    let start_list := filter nonempty (Str.split (abspath cwd start)) in
    let path_list := filter nonempty (Str.split (abspath cwd path)) in
    let i := List.length (commonprefix start_list path_list) in
    let rel_list :=
      (repeat ".." (List.length start_list - i) ++ skipn i path_list)%list in
    match rel_list with
    | [] => Ok "."
    | _ => Ok (join_all rel_list)
    end.

End Path.

(** ** Python numbers: [int / int], [float * int], [int(float)]

    A Python [float] is an IEEE 754 binary64; [spec_float] with precision 53
    and maximal exponent 1024 is its specification, every operation rounded
    to nearest, ties to even. *)

Module PyFloat.

Definition prec : Z := 53.
Definition emax : Z := 1024.

(** [float(n)]: the nearest double; infinite when [n] is out of range. *)
Definition of_int (n : Z) : spec_float := binary_normalize prec emax n 0 false.

Definition finite (f : spec_float) : bool :=
  match f with
  | S754_zero _ | S754_finite _ _ _ => true
  | S754_infinity _ | S754_nan => false
  end.

(** [a / b] on two [int]s. The pixel sizes of a decoded image are below
    2^31, where every integer is a double, so dividing the converted
    operands is the correctly rounded quotient Python returns. *)
Definition int_truediv (a b : Z) : result spec_float :=
  if b =? 0 then Err ZeroDivisionError
  else
    let q := SFdiv prec emax (of_int a) (of_int b) in
    if finite q then Ok q else Err OverflowError.

(** [x * n] for a [float] and an [int]: [n] is converted first, and that
    conversion raises when [n] is too large for a double; the product
    itself overflows silently to an infinity. *)
Definition mul_int (x : spec_float) (n : Z) : result spec_float :=
  let y := of_int n in
  if finite y then Ok (SFmul prec emax x y) else Err OverflowError.

(** [int(x)]: truncation toward zero. *)
Definition to_int (x : spec_float) : result Z :=
  match x with
  | S754_zero _ => Ok 0
  | S754_finite s m e =>
      let a := match e with
               | Zneg p => Z.shiftr (Zpos m) (Zpos p)
               | _ => Z.shiftl (Zpos m) e
               end in
      Ok (if s then - a else a)
  | S754_infinity _ => Err OverflowError
  | S754_nan => Err (ValueError "cannot convert float NaN to integer")
  end.

End PyFloat.

(** ** Directory trees and [os.walk] *)

(** A directory as [os.walk] sees it: its plain files and its
    subdirectories, each list in the order the operating system lists them.
    [A] is what a file holds. Symbolic links to directories, which [os.walk]
    lists but does not enter, are left out. *)
Inductive tree (A : Type) : Type :=
| Dir (files : list (string * A)) (subdirs : list (string * tree A)).
Arguments Dir {A} files subdirs.

Definition files_of {A} (t : tree A) : list (string * A) :=
  match t with Dir files _ => files end.

Definition subdirs_of {A} (t : tree A) : list (string * tree A) :=
  match t with Dir _ subdirs => subdirs end.

(** [os.walk(top)], top-down: the directory itself, then each subdirectory
    in listing order, recursively. An entry is [(root, dirs, files)]; the
    files come with their contents, which is what opening
    [os.path.join(root, file)] reads. *)
Fixpoint walk {A} (top : string) (t : tree A)
  : list (string * list string * list (string * A)) :=
  match t with
  | Dir files subdirs =>
      (top, map fst subdirs, files)
        :: flat_map (fun '(d, c) => walk (Path.join top d) c) subdirs
  end.

(** [os.walk('')] finds no directory to list and yields nothing. *)
Definition os_walk {A} (top : string) (t : tree A) :=
  if String.eqb top EmptyString then [] else walk top t.

(** The names a directory listing can hold: not empty, no slash, not [.] or
    [..]. *)
Definition wf_name (s : string) : bool :=
  negb (String.eqb s EmptyString) && negb (Str.has_slash s)
  && negb (String.eqb s ".") && negb (String.eqb s "..").

Fixpoint wf_tree {A} (t : tree A) : bool :=
  match t with
  | Dir files subdirs =>
      forallb (fun f => wf_name (fst f)) files
      && forallb (fun '(d, c) => wf_name d && wf_tree c) subdirs
  end.

(** ** Pillow, as far as the script uses it *)

Module PIL.

(** A decoded image: its colour mode (['P'], ['RGB'], ['RGBA'], ['L'], ...)
    and its size in pixels. *)
Record image : Type := { mode : string; width : Z; height : Z }.

(** The bytes of a file in the extraction tree. *)
Inductive blob : Type :=
| Bytes (decoded : option image)
    (** bytes as they came out of the archive: an image Pillow can decode,
        or anything else *)
| Jpeg (quality : Z) (img : image)
    (** bytes written by [img.save(path, "JPEG", quality=quality)] *).

(** [Image.open(path)] *)
Definition open (b : blob) : result image :=
  match b with
  | Bytes (Some img) => Ok img
  | Bytes None => Err UnidentifiedImageError
  | Jpeg _ img => Ok img
  end.

(** [img.convert(mode)] *)
Definition convert (img : image) (m : string) : image :=
  {| mode := m; width := width img; height := height img |}.

(** [img.resize((w, h), Image.LANCZOS)]: Pillow refuses a size that is not
    positive. *)
Definition resize (img : image) (size : Z * Z) : result image :=
  if (fst size <? 1) || (snd size <? 1)
  then Err (ValueError "height and width must be > 0")
  else Ok {| mode := mode img; width := fst size; height := snd size |}.

(** [img.save(path, "JPEG", quality=quality)]; [jpeg_writable] tells the
    modes the JPEG encoder accepts. *)
Definition save (jpeg_writable : string -> bool) (img : image) (quality : Z)
  : result blob :=
  if jpeg_writable (mode img) then Ok (Jpeg quality img)
  else Err (OSError ("cannot write mode " ++ mode img ++ " as JPEG")).

(** The encoder's table in Pillow's JpegImagePlugin. *)
Definition RAWMODE (m : string) : bool :=
  existsb (String.eqb m) ["1"; "L"; "RGB"; "RGBX"; "CMYK"; "YCbCr"].

End PIL.
Import PIL.

(** ** ebooklib, as far as the script uses it *)

Module epub.

Inductive item : Type :=
| EpubItem (uid file_name media_type : string) (content : blob)
| EpubHtml (title file_name lang content : string)
| EpubNcx
| EpubNav.

Record EpubBook : Type := {
  identifier : string;
  title : string;
  language : string;
  authors : list string;
  items : list item;
  spine : list item;
  toc : list item
}.

(** [epub.EpubBook()] *)
Definition new : EpubBook :=
  {| identifier := EmptyString; title := EmptyString;
     language := EmptyString; authors := [];
     items := []; spine := []; toc := [] |}.

Definition set_identifier (b : EpubBook) (s : string) : EpubBook :=
  {| identifier := s; title := title b; language := language b;
     authors := authors b; items := items b; spine := spine b; toc := toc b |}.

Definition set_title (b : EpubBook) (s : string) : EpubBook :=
  {| identifier := identifier b; title := s; language := language b;
     authors := authors b; items := items b; spine := spine b; toc := toc b |}.

Definition set_language (b : EpubBook) (s : string) : EpubBook :=
  {| identifier := identifier b; title := title b; language := s;
     authors := authors b; items := items b; spine := spine b; toc := toc b |}.

Definition add_author (b : EpubBook) (s : string) : EpubBook :=
  {| identifier := identifier b; title := title b; language := language b;
     authors := authors b ++ [s]; items := items b; spine := spine b;
     toc := toc b |}.

Definition add_item (b : EpubBook) (i : item) : EpubBook :=
  {| identifier := identifier b; title := title b; language := language b;
     authors := authors b; items := items b ++ [i]; spine := spine b;
     toc := toc b |}.

(** [book.spine.append(i)] *)
Definition spine_append (b : EpubBook) (i : item) : EpubBook :=
  {| identifier := identifier b; title := title b; language := language b;
     authors := authors b; items := items b; spine := spine b ++ [i];
     toc := toc b |}.

(** [book.toc = t] *)
Definition set_toc (b : EpubBook) (t : list item) : EpubBook :=
  {| identifier := identifier b; title := title b; language := language b;
     authors := authors b; items := items b; spine := spine b; toc := t |}.

(** The identifier the script gave an item, if it gave one. *)
Definition uid_of (i : item) : option string :=
  match i with
  | EpubItem uid _ _ _ => Some uid
  | _ => None
  end.

(** The title of a chapter. *)
Definition title_of (i : item) : string :=
  match i with
  | EpubHtml t _ _ _ => t
  | _ => EmptyString
  end.

End epub.
Import epub.

(** ** The world the script runs in *)

(** What the script can change: the temporary directories that exist, the
    directories that exist and the books it wrote under the output folder,
    and its standard output. The input folder is only read and is an argument
    of the batch driver. *)
Record world : Type := {
  scratch : list (string * tree blob);
  scratch_count : nat;
  made_dirs : list string;
  written : list (string * EpubBook);
  stdout : list string
}.

(** A statement: it changes the world, and returns or raises. *)
Definition M (A : Type) : Type := world -> world * result A.

Definition ret {A} (a : A) : M A := fun w => (w, Ok a).

Definition raise {A} (e : exn) : M A := fun w => (w, Err e).

Definition bind {A B} (m : M A) (k : A -> M B) : M B :=
  fun w =>
    match m w with
    | (w', Ok a) => k a w'
    | (w', Err e) => (w', Err e)
    end.

Declare Scope stmt_scope.
Delimit Scope stmt_scope with stmt.
Notation "x <- m ;; k" := (bind m (fun x => k))
  (at level 61, m at next level, right associativity) : stmt_scope.
Notation "m ;; k" := (bind m (fun _ => k))
  (at level 61, right associativity) : stmt_scope.

(** [let* x := e in k]: evaluate [e]; an exception propagates. *)
Definition result_bind {A B} (r : result A) (k : A -> result B) : result B :=
  match r with
  | Ok a => k a
  | Err e => Err e
  end.
Notation "'let*' x ':=' r 'in' k" := (result_bind r (fun x => k))
  (at level 10, x name, r at level 200, k at level 200).

(** [for x in l: body(x)] *)
Fixpoint for_each {A} (l : list A) (body : A -> M unit) : M unit :=
  match l with
  | [] => ret tt
  | x :: r => (body x ;; for_each r body)%stmt
  end.

(** Directories by name. *)
Fixpoint find_dir {A} (name : string) (l : list (string * A)) : option A :=
  match l with
  | [] => None
  | (n, t) :: r => if String.eqb n name then Some t else find_dir name r
  end.

Fixpoint set_dir {A} (name : string) (t : A) (l : list (string * A))
  : list (string * A) :=
  match l with
  | [] => []
  | (n, old) :: r =>
      if String.eqb n name then (n, t) :: r else (n, old) :: set_dir name t r
  end.

Fixpoint remove_dir {A} (name : string) (l : list (string * A))
  : list (string * A) :=
  match l with
  | [] => []
  | (n, t) :: r =>
      if String.eqb n name then r else (n, t) :: remove_dir name r
  end.

Definition with_scratch (f : list (string * tree blob) -> list (string * tree blob))
  (w : world) : world :=
  {| scratch := f (scratch w); scratch_count := scratch_count w;
     made_dirs := made_dirs w; written := written w; stdout := stdout w |}.

(** The name [tempfile] picks: any fresh name does, the model numbers them. *)
Definition tmpname (n : nat) : string :=
  "/tmp/tmp" ++ NilEmpty.string_of_uint (Nat.to_uint n).

(** [tempfile.TemporaryDirectory().__enter__()]: a new empty directory. *)
Definition mkdtemp (w : world) : string * world :=
  let name := tmpname (scratch_count w) in
  (name,
   {| scratch := (name, Dir [] []) :: scratch w;
      scratch_count := S (scratch_count w);
      made_dirs := made_dirs w; written := written w; stdout := stdout w |}).

(** [TemporaryDirectory.cleanup()]: the directory and all it holds go. *)
Definition cleanup (name : string) (w : world) : world :=
  with_scratch (remove_dir name) w.

(** [with tempfile.TemporaryDirectory() as temp_dir: body]: the directory is
    removed when the block is left, by its end or by an exception. *)
Definition with_TemporaryDirectory {A} (body : string -> M A) : M A :=
  fun w =>
    let (temp_dir, w1) := mkdtemp w in
    let (w2, r) := body temp_dir w1 in
    (cleanup temp_dir w2, r).

(** [with zipfile.ZipFile(cbz_file, 'r') as zip_ref:
      zip_ref.extractall(temp_dir)].
    An archive is given by the tree its extraction makes, [None] when the
    file is not a readable ZIP. *)
Definition extractall (archive : option (tree blob)) (temp_dir : string)
  : M unit :=
  fun w =>
    match archive with
    | None => (w, Err BadZipFile)
    | Some t => (with_scratch (set_dir temp_dir t) w, Ok tt)
    end.

(** [print(line)] *)
Definition print (line : string) : M unit :=
  fun w =>
    ({| scratch := scratch w; scratch_count := scratch_count w;
        made_dirs := made_dirs w; written := written w;
        stdout := stdout w ++ [line] |}, Ok tt).

(** ** The script *)

Section Script.

(** The environment: the working directory, the modes the JPEG encoder
    accepts, and the paths the file system lets the script create. *)
Variable cwd : string.
Variable jpeg_writable : string -> bool.
Variable creatable : string -> bool.

(** [os.makedirs(path, exist_ok=True)]: nothing to do when the directory
    exists; otherwise it is made, with the directories above it, or the file
    system refuses. *)
Definition makedirs (path : string) : M unit :=
  fun w =>
    if existsb (String.eqb path) (made_dirs w) then (w, Ok tt)
    else if creatable path then
      ({| scratch := scratch w; scratch_count := scratch_count w;
          made_dirs := made_dirs w ++ [path];
          written := written w; stdout := stdout w |}, Ok tt)
    else (w, Err (OSError path)).

(** [epub.write_epub(path, book, {})]: the file is replaced if it exists;
    [written] keeps every write, the last one for a path is the file. *)
Definition write_epub (path : string) (book : EpubBook) : M unit :=
  fun w =>
    if creatable path then
      ({| scratch := scratch w; scratch_count := scratch_count w;
          made_dirs := made_dirs w;
          written := written w ++ [(path, book)]; stdout := stdout w |}, Ok tt)
    else (w, Err (OSError path)).

Definition VALID_IMAGE_EXTENSIONS : list string := [".png"; ".jpg"; ".jpeg"].

(** [file.lower().endswith(VALID_IMAGE_EXTENSIONS)] *)
Definition is_image (file : string) : bool :=
  Str.endswith_any (Str.lower file) VALID_IMAGE_EXTENSIONS.

(** *** compress_images *)

(** [int(aspect_ratio * max_height)] with
    [aspect_ratio = img.width / img.height] *)
Definition new_width (img : image) (max_height : Z) : result Z :=
  let* aspect_ratio := PyFloat.int_truediv (width img) (height img) in
  let* scaled := PyFloat.mul_int aspect_ratio max_height in
  PyFloat.to_int scaled.

(** The body of the loop, for one image file: what the file holds afterwards. *)
Definition compress_image (quality max_height : Z) (b : blob) : result blob :=
  let* img := PIL.open b in
  let img := if String.eqb (mode img) "P" then convert img "RGB" else img in
  let* img :=
    if height img >? max_height then
      let* new_width := new_width img max_height in
      resize img (new_width, max_height)
    else Ok img in
  save jpeg_writable img quality.

(** [for file in files: ...] in one directory: the files in listing order,
    rewritten in place; at an exception the files before it stay rewritten. *)
Fixpoint compress_files (quality max_height : Z) (files : list (string * blob))
  : list (string * blob) * result unit :=
  match files with
  | [] => ([], Ok tt)
  | (file, b) :: rest =>
      if is_image file then
        match compress_image quality max_height b with
        | Ok b' =>
            let (rest', r) := compress_files quality max_height rest in
            ((file, b') :: rest', r)
        | Err e => (files, Err e)
        end
      else
        let (rest', r) := compress_files quality max_height rest in
        ((file, b) :: rest', r)
  end.

(** The subdirectories of a directory in listing order, each walked by
    [walk_one]; an exception ends the walk. *)
Definition compress_subdirs (walk_one : tree blob -> tree blob * result unit)
  : list (string * tree blob) -> list (string * tree blob) * result unit :=
  fix each (l : list (string * tree blob)) :=
    match l with
    | [] => ([], Ok tt)
    | (d, c) :: rest =>
        let (c', rc) := walk_one c in
        match rc with
        | Err e => ((d, c') :: rest, Err e)
        | Ok _ => let (rest', rr) := each rest in ((d, c') :: rest', rr)
        end
    end.

(** [for root, _, files in os.walk(...)] over a directory: its own files
    first, then its subdirectories in listing order, as [walk] goes. *)
Fixpoint compress_tree (quality max_height : Z) (t : tree blob)
  : tree blob * result unit :=
  match t with
  | Dir files subdirs =>
      let (files', r) := compress_files quality max_height files in
      match r with
      | Err e => (Dir files' subdirs, Err e)
      | Ok _ =>
          let (subdirs', r') :=
            compress_subdirs (compress_tree quality max_height) subdirs in
          (Dir files' subdirs', r')
      end
  end.

Definition compress_images (temp_dir : string) (quality max_height : Z)
  : M unit :=
  fun w =>
    if String.eqb temp_dir EmptyString then (w, Ok tt)
    else
      match find_dir temp_dir (scratch w) with
      | None => (w, Ok tt)
      | Some t =>
          let (t', r) := compress_tree quality max_height t in
          (with_scratch (set_dir temp_dir t') w, r)
      end.

(** *** create_epub *)

(** [sorted(files)]: the files of one directory by ascending name. Python
    compares [str] by code point, which on UTF-8 byte strings is
    [String.leb]. The order is total and two names that compare equal are the
    same string, so the sorted list is unique and any sorting algorithm
    computes what Python's does; insertion is the simplest one. Each name
    comes with the content of its file. *)
Fixpoint insert_file {A} (f : string * A) (l : list (string * A))
  : list (string * A) :=
  match l with
  | [] => [f]
  | g :: r => if String.leb (fst f) (fst g) then f :: l else g :: insert_file f r
  end.

Fixpoint sorted_files {A} (l : list (string * A)) : list (string * A) :=
  match l with
  | [] => []
  | f :: r => insert_file f (sorted_files r)
  end.

Definition dquote : string := String (ascii_of_nat 34) EmptyString.

(** The body of the inner loop for one image file. *)
Definition add_page (root : string) (book : EpubBook) (f : string * blob)
  : EpubBook :=
  let (file, img_content) := f in
  let img_path := Path.join root file in
  let img_name := Path.basename img_path in
  let img_item := EpubItem img_name img_name "image/jpeg" img_content in
  let book := add_item book img_item in
  let chapter :=
    EpubHtml img_name (img_name ++ ".xhtml") "en"
      ("<html><body><img src=" ++ dquote ++ img_name ++ dquote
       ++ " alt=" ++ dquote ++ img_name ++ dquote ++ "/></body></html>") in
  let book := add_item book chapter in
  spine_append book chapter.

(** The inner loop, for one directory of the walk. *)
Definition add_pages (book : EpubBook)
  (entry : string * list string * list (string * blob)) : EpubBook :=
  let '(root, _, files) := entry in
  fold_left
    (fun book f => if is_image (fst f) then add_page root book f else book)
    (sorted_files files) book.

(** The book [create_epub] assembles from the tree under [temp_dir]. *)
Definition make_book (temp_dir : string) (t : tree blob) : EpubBook :=
  let book := epub.new in
  let book := set_identifier book "id123456" in
  let book := set_title book "Converted Images" in
  let book := set_language book "en" in
  let book := add_author book "Author" in
  let book := fold_left add_pages (os_walk temp_dir t) book in
  let book := set_toc book (skipn 1 (spine book)) in
  let book := add_item book EpubNcx in
  let book := add_item book EpubNav in
  book.

Definition create_epub (temp_dir output_path : string) : M unit :=
  fun w =>
    let t := match find_dir temp_dir (scratch w) with
             | Some t => t
             | None => Dir [] []
             end in
    write_epub output_path (make_book temp_dir t) w.

(** *** process_cbz *)

Definition process_cbz (cbz_file : string) (archive : option (tree blob))
  (output_folder : string) (quality max_height : Z) (relative_path : string)
  : M unit :=
  with_TemporaryDirectory (fun temp_dir =>
    (extractall archive temp_dir ;;
     compress_images temp_dir quality max_height ;;
     let epub_filename :=
       fst (Path.splitext (Path.basename cbz_file)) ++ ".epub" in
     let epub_output_path := Path.join output_folder relative_path in
     makedirs epub_output_path ;;
     let epub_path := Path.join epub_output_path epub_filename in
     create_epub temp_dir epub_path ;;
     print ("✅ Created " ++ epub_path))%stmt).

(** *** process_folder *)

Definition is_cbz (f : string) : bool := Str.endswith (Str.lower f) ".cbz".

(** The body of the outer loop, for one directory of the walk. The files of
    the input tree hold archives. [tqdm] hands the archives through in order
    and reports progress on standard error, which the world leaves out. *)
Definition process_dir (input_folder output_folder : string)
  (quality max_height : Z)
  (entry : string * list string * list (string * option (tree blob)))
  : M unit :=
  let '(root, _, files) := entry in
  match Path.relpath cwd root input_folder with
  | Err e => raise e
  | Ok relative_path =>
      let cbz_files := filter (fun f => is_cbz (fst f)) files in
      match cbz_files with
      | [] => ret tt
      | _ =>
          for_each cbz_files (fun '(cbz_file, archive) =>
            process_cbz (Path.join root cbz_file) archive output_folder
              quality max_height relative_path)
      end
  end.

Definition process_folder (input_folder output_folder : string)
  (quality max_height : Z) (input : tree (option (tree blob))) : M unit :=
  for_each (os_walk input_folder input)
    (process_dir input_folder output_folder quality max_height).

End Script.

(** The world before the script starts. *)
Definition empty_world : world :=
  {| scratch := []; scratch_count := 0; made_dirs := []; written := [];
     stdout := [] |}.

(** ** Notions the properties are stated with *)

(** The mode an image has when it reaches the encoder. *)
Definition normal_mode (m : string) : string :=
  if String.eqb m "P" then "RGB" else m.




(** The reading order of a book: the image names of its spine. *)
Definition reading_order (b : EpubBook) : list string :=
  map title_of (spine b).

(** The table of contents of a book, by image names. *)
Definition toc_order (b : EpubBook) : list string :=
  map title_of (toc b).

(** Ascending order on names. *)
Definition name_le (a b : string) : Prop := String.leb a b = true.

Definition ascending (l : list string) : Prop := StronglySorted name_le l.

(** The page names one directory of the walk contributes. *)
Definition dir_pages {A} (entry : string * list string * list (string * A))
  : list string :=
  filter is_image (map fst (sorted_files (snd entry))).

(** All files of a tree, in the order [os.walk] meets them. *)
Definition tree_files {A} (t : tree A) : list (string * A) :=
  flat_map (fun e => snd e) (walk "." t).

(** The page images of a tree. *)
Definition tree_images {A} (t : tree A) : list (string * A) :=
  filter (fun f => is_image (fst f)) (tree_files t).

(** The identifiers the script gave to the items of a book. *)
Fixpoint given_uids (l : list item) : list string :=
  match l with
  | [] => []
  | i :: r =>
      match uid_of i with
      | Some u => u :: given_uids r
      | None => given_uids r
      end
  end.

(** The chapter the script makes for an image name. *)
Definition chapter_of (img_name : string) : item :=
  EpubHtml img_name (img_name ++ ".xhtml") "en"
    ("<html><body><img src=" ++ dquote ++ img_name ++ dquote
     ++ " alt=" ++ dquote ++ img_name ++ dquote ++ "/></body></html>").


(** The pages of a book made from the tree under [top]: image name and
    content, directory by directory as [os.walk] goes, each directory's
    image files by ascending name. *)
Definition pages_of_entry (entry : string * list string * list (string * blob))
  : list (string * blob) :=
  let '(root, _, files) := entry in
  map (fun f => (Path.basename (Path.join root (fst f)), snd f))
    (filter (fun f => is_image (fst f)) (sorted_files files)).

Definition pages (top : string) (t : tree blob) : list (string * blob) :=
  flat_map pages_of_entry (os_walk top t).

(** The two items the script adds for a page. *)
Definition items_of_page (p : string * blob) : list item :=
  [EpubItem (fst p) (fst p) "image/jpeg" (snd p); chapter_of (fst p)].

(** The ordering rule in the words of the specification: the reading order
    is the ascending order of the image names of the whole tree. *)
Definition spec_reading_order_ascending (top : string) (t : tree blob) : Prop :=
  ascending (reading_order (make_book top t))
  /\ Permutation (reading_order (make_book top t)) (map fst (tree_images t)).

(** The world after a conversion: the temporary directory is gone and one
    more name is used up; [dirs], [books] and [lines] are what was added. *)
Definition after_conversion (w : world) (dirs : list string)
  (books : list (string * EpubBook)) (lines : list string) : world :=
  {| scratch := scratch w; scratch_count := S (scratch_count w);
     made_dirs := dirs; written := (written w ++ books)%list;
     stdout := (stdout w ++ lines)%list |}.

(** [made_dirs] after [os.makedirs(path, exist_ok=True)]. *)
Definition with_dir (path : string) (dirs : list string) : list string :=
  if existsb (String.eqb path) dirs then dirs else (dirs ++ [path])%list.

(** The name of the book for an archive. *)
Definition epub_name (cbz_file : string) : string :=
  fst (Path.splitext (Path.basename cbz_file)) ++ ".epub".

(** The conversions of a batch, in the order the driver meets the archives:
    the path of the archive, the archive, and the relative path of its
    directory. *)
Definition dir_jobs (cwd input_folder : string)
  (entry : string * list string * list (string * option (tree blob)))
  : list (string * option (tree blob) * string) :=
  let '(root, _, files) := entry in
  match Path.relpath cwd root input_folder with
  | Err _ => []
  | Ok relative_path =>
      map (fun f => (Path.join root (fst f), snd f, relative_path))
        (filter (fun f => is_cbz (fst f)) files)
  end.

Definition jobs (cwd input_folder : string) (input : tree (option (tree blob)))
  : list (string * option (tree blob) * string) :=
  flat_map (dir_jobs cwd input_folder) (os_walk input_folder input).

Definition run_job (jpeg_writable creatable : string -> bool)
  (output_folder : string) (quality max_height : Z)
  (job : string * option (tree blob) * string) : M unit :=
  let '(cbz_file, archive, relative_path) := job in
  process_cbz jpeg_writable creatable cbz_file archive output_folder quality
    max_height relative_path.

(** A book has been written at [path]. *)
Definition converted (w : world) (path : string) : Prop :=
  exists book, In (path, book) (written w).

(** The error rule in the words of the specification: every readable archive
    of the batch is converted, whatever happens to its siblings. *)
Definition spec_siblings_still_converted (cwd : string)
  (jpeg_writable creatable : string -> bool) (input_folder output_folder : string)
  (quality max_height : Z) (input : tree (option (tree blob))) : Prop :=
  forall cbz_file t relative_path,
    In (cbz_file, Some t, relative_path) (jobs cwd input_folder input) ->
    converted
      (fst (process_folder cwd jpeg_writable creatable input_folder
              output_folder quality max_height input empty_world))
      (Path.join (Path.join output_folder relative_path) (epub_name cbz_file)).





(** The temporary directories of [w] are those of [base] and, before them,
    the directory [name]. *)
Definition scratch_headed (base : list (string * tree blob)) (name : string)
  (w : world) : Prop :=
  exists t, scratch w = (name, t) :: base.

(** A statement keeps a property of the world, however it ends. *)
Definition preserves {A} (P : world -> Prop) (m : M A) : Prop :=
  forall w, P w -> P (fst (m w)).

(** Files by ascending name. *)
Definition file_le {A} (f g : string * A) : Prop := name_le (fst f) (fst g).

(** A file before and after a pass of [compress_images] that went through. *)
Definition compressed (jpeg_writable : string -> bool) (quality max_height : Z)
  (f f' : string * blob) : Prop :=
  fst f' = fst f
  /\ if is_image (fst f)
     then compress_image jpeg_writable quality max_height (snd f) = Ok (snd f')
     else snd f' = snd f.


(** A file of the extraction tree before and after a pass of the normaliser
    that went through: a page image that decoded to [img] holds a JPEG at
    the asked quality of an image [out] with [P img out]; a file that is not
    a page image is as it was. *)
Definition normalised (quality : Z) (P : image -> image -> Prop)
  (f f' : string * blob) : Prop :=
  fst f' = fst f
  /\ (is_image (fst f) = false -> snd f' = snd f)
  /\ (is_image (fst f) = true ->
      forall img, snd f = Bytes (Some img) ->
      exists out, snd f' = Jpeg quality out /\ P img out).

(** *** Example inputs *)

Definition picture (m : string) (w h : Z) : blob :=
  Bytes (Some {| mode := m; width := w; height := h |}).

(** Three pages in one directory, listed out of order. *)
Definition three_pages : tree blob :=
  Dir [("b.jpg", picture "RGB" 800 600); ("a.jpg", picture "RGB" 800 600);
       ("c.jpg", picture "RGB" 800 600)] [].

(** A page at the top and one in a subdirectory. *)
Definition nested_pages : tree blob :=
  Dir [("z.jpg", picture "RGB" 800 600)]
      [("a", Dir [("y.jpg", picture "RGB" 800 600)] [])].

(** Two chapters of a volume, each with its own [001.jpg]. *)
Definition same_names : tree blob :=
  Dir [] [("ch1", Dir [("001.jpg", picture "RGB" 800 600)] []);
          ("ch2", Dir [("001.jpg", picture "L" 800 600)] [])].

(** A page with an alpha channel. *)
Definition rgba_page : tree blob :=
  Dir [("cover.png", picture "RGBA" 800 600)] [].

(** An input folder: one unreadable archive and a good one next to it. *)
Definition bad_then_good : tree (option (tree blob)) :=
  Dir [("bad.cbz", None); ("good.cbz", Some three_pages)] [].

(** An input folder with a series directory. *)
Definition series_folder : tree (option (tree blob)) :=
  Dir [] [("seriesA", Dir [("vol1.cbz", Some three_pages)] [])].

Definition always (_ : string) : bool := true.

(** A tall page. *)
Definition tall_page : image := {| mode := "RGB"; width := 1003; height := 4096 |}.

(** A small palette page. *)
Definition palette_page : image := {| mode := "P"; width := 800; height := 600 |}.

(** An input folder: a good archive, an unreadable one, a good one. *)
Definition good_bad_good : tree (option (tree blob)) :=
  Dir [("a.cbz", Some three_pages); ("b.cbz", None);
       ("c.cbz", Some nested_pages)] [].

(** An archive with a small palette page, a tall page and a text file. *)
Definition mixed_pages : tree blob :=
  Dir [("001.png", Bytes (Some palette_page)); ("notes.txt", Bytes None)]
      [("extra", Dir [("002.JPG", Bytes (Some tall_page))] [])].

(** An archive with a page that does not decode. *)
Definition broken_page : tree blob :=
  Dir [("001.jpg", Bytes None)] [].

(** [mixed_pages] after the normaliser, at quality 80 and height 1024. *)
Definition mixed_pages_done : tree blob :=
  Dir [("001.png", Jpeg 80 {| mode := "RGB"; width := 800; height := 600 |});
       ("notes.txt", Bytes None)]
      [("extra",
        Dir [("002.JPG",
              Jpeg 80 {| mode := "RGB"; width := 250; height := 1024 |})] [])].

(** *** Notions for the whole script *)

(** What [os.walk(top)] yields: for each directory its path, the names of its
    subdirectories and the names of its files. *)
Definition listing {A} (top : string) (t : tree A)
  : list (string * list string * list string) :=
  map (fun e => (fst (fst e), snd (fst e), map fst (snd e))) (walk top t).


(** The line a conversion prints when it is done. *)
Definition notice (epub_path : string) : string := "✅ Created " ++ epub_path.

(** The image items of a book: name, media type and payload. *)
Fixpoint image_items (l : list item) : list (string * string * blob) :=
  match l with
  | [] => []
  | EpubItem _ file_name media_type content :: r =>
      (file_name, media_type, content) :: image_items r
  | _ :: r => image_items r
  end.

(** An archive without pages. *)
Definition no_pages : tree blob :=
  Dir [("readme.txt", Bytes None)] [("art", Dir [("cover.gif", Bytes None)] [])].

(** An archive with good pages and one that does not decode, in a
    subdirectory. *)
Definition one_broken : tree blob :=
  Dir [("001.jpg", Bytes (Some palette_page)); ("info.txt", Bytes None)]
      [("ch1", Dir [("002.png", Bytes None);
                    ("003.png", Bytes (Some tall_page))] [])].

(** An input folder without archives. *)
Definition no_archives : tree (option (tree blob)) :=
  Dir [("cover.jpg", None)] [("notes", Dir [("todo.txt", None)] [])].




(** ** Numbers *)

(** [int(x)] is the value of [x], [+-m * 2^e], truncated toward zero. *)
Lemma to_int_truncates s m e :
  PyFloat.to_int (S754_finite s m e)
  = Ok (Z.quot ((if s then -1 else 1) * (Zpos m * 2 ^ Z.max e 0))
               (2 ^ Z.max (- e) 0)).
Proof.
  unfold PyFloat.to_int. f_equal.
  destruct e as [|p|p].
  - cbn [Z.max Z.opp Z.compare]. rewrite Z.shiftl_0_r.
    change (2 ^ 0) with 1. rewrite Z.mul_1_r, Z.quot_1_r.
    destruct s; lia.
  - replace (Z.max (Z.pos p) 0) with (Z.pos p) by lia.
    replace (Z.max (- Z.pos p) 0) with 0 by lia.
    change (2 ^ 0) with 1. rewrite Z.quot_1_r, Z.shiftl_mul_pow2 by lia.
    destruct s; lia.
  - replace (Z.max (Z.neg p) 0) with 0 by lia.
    replace (Z.max (- Z.neg p) 0) with (Z.pos p) by lia.
    change (2 ^ 0) with 1. rewrite Z.mul_1_r, Z.shiftr_div_pow2 by lia.
    assert (Hp : 0 < 2 ^ Z.pos p) by (apply Z.pow_pos_nonneg; lia).
    destruct s.
    + replace (-1 * Z.pos m) with (- Z.pos m) by lia.
      rewrite Z.quot_opp_l by lia. rewrite Z.quot_div_nonneg by lia.
      reflexivity.
    + rewrite Z.mul_1_l, Z.quot_div_nonneg by lia. reflexivity.
Qed.

(** ** The image normaliser *)

Section Normalizer.

Variable jpeg_writable : string -> bool.

Lemma gtb_false_iff a b : (a >? b) = false <-> a <= b.
Proof. rewrite Z.gtb_ltb, Z.ltb_ge. reflexivity. Qed.

Lemma gtb_true_iff a b : (a >? b) = true <-> a > b.
Proof. rewrite Z.gtb_ltb, Z.ltb_lt. lia. Qed.

Lemma normal_mode_convert img :
  (if String.eqb (mode img) "P" then convert img "RGB" else img)
  = {| mode := normal_mode (mode img); width := width img;
       height := height img |}.
Proof.
  unfold normal_mode, convert.
  destruct (String.eqb (mode img) "P"); destruct img; reflexivity.
Qed.

Lemma normal_mode_not_P m : normal_mode m <> "P".
Proof.
  unfold normal_mode. destruct (String.eqb_spec m "P"); congruence.
Qed.

(** What [compress_image] does to an image that needs no resizing. *)
Lemma compress_image_small quality max_height img :
  height img <= max_height ->
  compress_image jpeg_writable quality max_height (Bytes (Some img))
  = save jpeg_writable
      {| mode := normal_mode (mode img); width := width img;
         height := height img |} quality.
Proof.
  intros H. unfold compress_image. cbn [PIL.open result_bind].
  rewrite normal_mode_convert. cbn [height].
  apply gtb_false_iff in H. rewrite H. reflexivity.
Qed.

(** What [compress_image] does to an image that is too tall. *)
Lemma compress_image_tall quality max_height img :
  height img > max_height ->
  compress_image jpeg_writable quality max_height (Bytes (Some img))
  = let* w := new_width img max_height in
    let* resized :=
      resize {| mode := normal_mode (mode img); width := width img;
                height := height img |} (w, max_height) in
    save jpeg_writable resized quality.
Proof.
  intros H. unfold compress_image. cbn [PIL.open result_bind].
  rewrite normal_mode_convert. cbn [height].
  apply gtb_true_iff in H. rewrite H.
  unfold new_width. cbn [width height].
  destruct (PyFloat.int_truediv (width img) (height img)); cbn [result_bind];
    [|reflexivity].
  destruct (PyFloat.mul_int a max_height); cbn [result_bind]; [|reflexivity].
  destruct (PyFloat.to_int a0); cbn [result_bind]; [|reflexivity].
  destruct (resize _ _); reflexivity.
Qed.

(** A resize that goes through gives the size that was asked, which is
    positive, and keeps the mode. *)
Lemma resize_ok img size out :
  resize img size = Ok out ->
  out = {| mode := mode img; width := fst size; height := snd size |}
  /\ 1 <= fst size /\ 1 <= snd size.
Proof.
  unfold resize. destruct (fst size <? 1) eqn:E1; [discriminate|].
  destruct (snd size <? 1) eqn:E2; [discriminate|]. cbn [orb].
  intros H. injection H as <-. apply Z.ltb_ge in E1, E2. auto.
Qed.

(** Whatever [compress_image] writes is a JPEG at the asked quality, of an
    image in the normal mode of the input, and as high as the input or as
    [max_height], whichever is less. *)
Lemma compress_image_ok quality max_height img b :
  compress_image jpeg_writable quality max_height (Bytes (Some img)) = Ok b ->
  exists out,
    b = Jpeg quality out
    /\ mode out = normal_mode (mode img)
    /\ jpeg_writable (normal_mode (mode img)) = true
    /\ height out = Z.min (height img) max_height.
Proof.
  intros H. destruct (Z_le_gt_dec (height img) max_height) as [Hs|Ht].
  - rewrite (compress_image_small _ _ _ Hs) in H. unfold save in H.
    cbn [mode] in H.
    destruct (jpeg_writable (normal_mode (mode img))) eqn:Hw; [|discriminate].
    injection H as <-. eexists; repeat split; cbn; try reflexivity. lia.
  - rewrite (compress_image_tall _ _ _ Ht) in H.
    destruct (new_width img max_height) as [w|]; cbn [result_bind] in H;
      [|discriminate].
    destruct (resize _ _) as [resized|] eqn:Hr; cbn [result_bind] in H;
      [|discriminate].
    apply resize_ok in Hr. destruct Hr as (-> & _ & _).
    unfold save in H. cbn [mode] in H.
    destruct (jpeg_writable (normal_mode (mode img))) eqn:Hw; [|discriminate].
    injection H as <-. eexists; repeat split; cbn; try reflexivity. lia.
Qed.

(** An image whose normal mode the encoder refuses is never written. *)
Lemma compress_image_refused quality max_height img :
  jpeg_writable (normal_mode (mode img)) = false ->
  exists e,
    compress_image jpeg_writable quality max_height (Bytes (Some img)) = Err e.
Proof.
  intros Hw.
  destruct (compress_image jpeg_writable quality max_height (Bytes (Some img)))
    as [b|e] eqn:H.
  - apply compress_image_ok in H. destruct H as (out & _ & _ & Hw' & _).
    congruence.
  - eauto.
Qed.

End Normalizer.

(** ** Sorting file names *)

Lemma ascii_compare_refl a : Ascii.compare a a = Eq.
Proof. unfold Ascii.compare. apply N.compare_refl. Qed.

Lemma ascii_compare_trans a b c o :
  Ascii.compare a b = o -> Ascii.compare b c = o -> Ascii.compare a c = o.
Proof.
  unfold Ascii.compare. intros H1 H2.
  destruct o.
  - apply N.compare_eq_iff in H1, H2. apply N.compare_eq_iff. congruence.
  - rewrite N.compare_lt_iff in *. lia.
  - rewrite N.compare_gt_iff in *. lia.
Qed.

Lemma string_compare_trans_lt s1 : forall s2 s3,
  String.compare s1 s2 <> Gt -> String.compare s2 s3 <> Gt ->
  String.compare s1 s3 <> Gt.
Proof.
  induction s1 as [|a s1 IH]; intros [|b s2] [|c s3]; cbn; try congruence.
  destruct (Ascii.compare a b) eqn:Hab; try congruence;
    destruct (Ascii.compare b c) eqn:Hbc; try congruence; intros H1 H2.
  - rewrite (ascii_compare_trans _ _ _ _ Hab Hbc). eauto.
  - apply Ascii.compare_eq_iff in Hab. subst. rewrite Hbc. congruence.
  - apply Ascii.compare_eq_iff in Hbc. subst. rewrite Hab. congruence.
  - rewrite (ascii_compare_trans _ _ _ _ Hab Hbc). congruence.
Qed.

Lemma name_le_trans a b c : name_le a b -> name_le b c -> name_le a c.
Proof.
  unfold name_le, String.leb. intros H1 H2.
  pose proof (string_compare_trans_lt a b c) as H.
  destruct (String.compare a b); destruct (String.compare b c);
    destruct (String.compare a c); try reflexivity; try discriminate;
    exfalso; apply H; congruence.
Qed.

Lemma name_le_total a b : name_le a b \/ name_le b a.
Proof. apply String.leb_total. Qed.

Section SortedFiles.

Context {A : Type}.

Lemma insert_file_perm (f : string * A) l : Permutation (insert_file f l) (f :: l).
Proof.
  induction l as [|g l IH]; cbn; [reflexivity|].
  destruct (String.leb (fst f) (fst g)); [reflexivity|].
  rewrite IH. apply perm_swap.
Qed.

Lemma sorted_files_perm (l : list (string * A)) : Permutation (sorted_files l) l.
Proof.
  induction l as [|f l IH]; cbn; [reflexivity|].
  rewrite insert_file_perm. now constructor.
Qed.

Lemma insert_file_sorted (f : string * A) l :
  StronglySorted file_le l -> StronglySorted file_le (insert_file f l).
Proof.
  induction 1 as [|g l Hs IH Hall]; cbn.
  - constructor; constructor.
  - destruct (String.leb (fst f) (fst g)) eqn:E.
    + constructor; [constructor; assumption|].
      constructor; [exact E|].
      eapply Forall_impl; [|exact Hall].
      intros h Hh. unfold file_le in *. eapply name_le_trans; eauto.
    + constructor; [exact IH|].
      rewrite (insert_file_perm f l). constructor; [|exact Hall].
      destruct (name_le_total (fst f) (fst g)) as [H|H]; [|exact H].
      unfold name_le in H. congruence.
Qed.

Lemma sorted_files_sorted (l : list (string * A)) :
  StronglySorted file_le (sorted_files l).
Proof.
  induction l as [|f l IH]; cbn; [constructor|].
  now apply insert_file_sorted.
Qed.

End SortedFiles.

Lemma StronglySorted_filter {A} (R : A -> A -> Prop) (p : A -> bool) l :
  StronglySorted R l -> StronglySorted R (filter p l).
Proof.
  induction 1 as [|x l Hs IH Hall]; cbn; [constructor|].
  destruct (p x); [|exact IH].
  constructor; [exact IH|].
  rewrite Forall_forall in *. intros y Hy. apply filter_In in Hy.
  apply Hall, Hy.
Qed.

Lemma StronglySorted_map_fst {A} (l : list (string * A)) :
  StronglySorted file_le l -> ascending (map fst l).
Proof.
  unfold ascending.
  induction 1 as [|x l Hs IH Hall]; cbn; constructor; [exact IH|].
  rewrite Forall_forall in *. intros y Hy. apply in_map_iff in Hy.
  destruct Hy as (g & <- & Hg). apply Hall, Hg.
Qed.

Lemma dir_pages_ascending {A} (e : string * list string * list (string * A)) :
  ascending (dir_pages e).
Proof.
  unfold dir_pages. apply StronglySorted_filter, StronglySorted_map_fst.
  apply sorted_files_sorted.
Qed.

Lemma filter_map_fst {A} (p : string -> bool) (l : list (string * A)) :
  filter p (map fst l) = map fst (filter (fun f => p (fst f)) l).
Proof.
  induction l as [|f l IH]; cbn; [reflexivity|].
  destruct (p (fst f)); cbn; now rewrite IH.
Qed.

Lemma Permutation_filter {A} (p : A -> bool) (l l' : list A) :
  Permutation l l' -> Permutation (filter p l) (filter p l').
Proof.
  induction 1 as [|x l l' H IH|x y l|l l' l'' H1 IH1 H2 IH2]; cbn.
  - constructor.
  - destruct (p x); [constructor|]; exact IH.
  - destruct (p x), (p y); try reflexivity. apply perm_swap.
  - etransitivity; eauto.
Qed.

Lemma dir_pages_perm {A} (e : string * list string * list (string * A)) :
  Permutation (dir_pages e) (filter is_image (map fst (snd e))).
Proof.
  unfold dir_pages. apply Permutation_filter, Permutation_map.
  apply sorted_files_perm.
Qed.

(** ** Paths *)

Lemma rsplit_at_no_slash f :
  Str.has_slash f = false -> Str.rsplit_at "/" f = None.
Proof.
  induction f as [|a f IH]; cbn; [reflexivity|].
  intros H. apply orb_false_iff in H. destruct H as [Ha Hf].
  rewrite (IH Hf), Ha. reflexivity.
Qed.

Lemma rsplit_at_slash r f :
  Str.has_slash f = false ->
  Str.rsplit_at "/" (r ++ String "/" f) = Some (r, f).
Proof.
  intros Hf. induction r as [|a r IH]; cbn.
  - now rewrite (rsplit_at_no_slash _ Hf).
  - now rewrite IH.
Qed.

Lemma ends_with_slash_app s :
  Str.ends_with_slash s = true -> exists r, s = r ++ "/".
Proof.
  induction s as [|a s IH]; cbn; [discriminate|].
  destruct s as [|b s].
  - intros H. apply Ascii.eqb_eq in H. subst. exists EmptyString. reflexivity.
  - intros H. destruct (IH H) as [r Hr]. exists (String a r). cbn.
    now rewrite <- Hr.
Qed.

Lemma starts_with_slash_has_slash f :
  Str.has_slash f = false -> Str.starts_with_slash f = false.
Proof.
  destruct f as [|a f]; cbn; [reflexivity|].
  intros H. apply orb_false_iff in H. destruct H as [Ha _].
  destruct a as [[] [] [] [] [] [] [] []]; try reflexivity; discriminate.
Qed.

Lemma string_app_assoc (a b c : string) : (a ++ b) ++ c = a ++ (b ++ c).
Proof. induction a; cbn; congruence. Qed.

(** The base name of a file met by the walk is its name in the listing. *)
Lemma basename_join root file :
  Str.has_slash file = false -> Path.basename (Path.join root file) = file.
Proof.
  intros Hf. unfold Path.basename, Path.join.
  rewrite (starts_with_slash_has_slash _ Hf).
  destruct (String.eqb_spec root EmptyString) as [->|Hr]; cbn [orb].
  - cbn. now rewrite (rsplit_at_no_slash _ Hf).
  - destruct (Str.ends_with_slash root) eqn:He.
    + destruct (ends_with_slash_app _ He) as [r ->].
      rewrite string_app_assoc. cbn. now rewrite (rsplit_at_slash _ _ Hf).
    + cbn. now rewrite (rsplit_at_slash _ _ Hf).
Qed.

(** ** Trees *)

#[local] Open Scope list_scope.

Lemma tree_induction {A} (P : tree A -> Prop) :
  (forall files subdirs,
      Forall (fun dc => P (snd dc)) subdirs -> P (Dir files subdirs)) ->
  forall t, P t.
Proof.
  intros step. fix IH 1. intros [files subdirs]. apply step.
  induction subdirs as [|[d c] rest IHrest]; constructor.
  - apply IH.
  - exact IHrest.
Qed.

Lemma walk_files_wf {A} (t : tree A) : forall top,
  wf_tree t = true ->
  forall e, In e (walk top t) ->
  forall f, In f (snd e) -> wf_name (fst f) = true.
Proof.
  induction t as [files subdirs IH] using tree_induction.
  intros top Hwf e He f Hf. cbn in Hwf. apply andb_true_iff in Hwf.
  destruct Hwf as [Hfiles Hsub]. cbn in He. destruct He as [<-|He].
  - cbn in Hf. rewrite forallb_forall in Hfiles. now apply Hfiles.
  - apply in_flat_map in He. destruct He as ([d c] & Hdc & He).
    rewrite Forall_forall in IH. rewrite forallb_forall in Hsub.
    specialize (Hsub _ Hdc). cbn in Hsub. apply andb_true_iff in Hsub.
    eapply (IH _ Hdc); [apply Hsub|exact He|exact Hf].
Qed.

Lemma walk_files_top {A} (t : tree A) : forall top top',
  map snd (walk top t) = map snd (walk top' t).
Proof.
  induction t as [files subdirs IH] using tree_induction.
  intros top top'. cbn. f_equal.
  rewrite !flat_map_concat_map, !concat_map, !map_map. f_equal.
  apply map_ext_in. intros [d c] Hdc. rewrite Forall_forall in IH.
  apply (IH _ Hdc).
Qed.

Lemma wf_name_no_slash s : wf_name s = true -> Str.has_slash s = false.
Proof.
  unfold wf_name. intros H. repeat (apply andb_true_iff in H; destruct H as [H ?]).
  now apply negb_true_iff.
Qed.

(** ** The book [create_epub] assembles *)

Lemma title_of_chapter n : title_of (chapter_of n) = n.
Proof. reflexivity. Qed.

Lemma add_page_spine root book f :
  spine (add_page root book f)
  = spine book ++ [chapter_of (Path.basename (Path.join root (fst f)))].
Proof. destruct f. reflexivity. Qed.

Lemma add_page_items root book f :
  items (add_page root book f)
  = items book
    ++ items_of_page (Path.basename (Path.join root (fst f)), snd f).
Proof.
  destruct f. unfold add_page, items_of_page. cbn.
  rewrite <- app_assoc. reflexivity.
Qed.

Lemma add_pages_spine e book :
  spine (add_pages book e)
  = spine book ++ map (fun p => chapter_of (fst p)) (pages_of_entry e).
Proof.
  destruct e as [[root dirs] files]. unfold add_pages, pages_of_entry.
  generalize (sorted_files files) as l. intros l. revert book.
  induction l as [|f l IH]; intros book; cbn [fold_left filter map].
  - now rewrite app_nil_r.
  - destruct (is_image (fst f)); cbn [map fst snd]; rewrite IH; [|reflexivity].
    rewrite add_page_spine, <- app_assoc. reflexivity.
Qed.

Lemma add_pages_items e book :
  items (add_pages book e)
  = items book ++ flat_map items_of_page (pages_of_entry e).
Proof.
  destruct e as [[root dirs] files]. unfold add_pages, pages_of_entry.
  generalize (sorted_files files) as l. intros l. revert book.
  induction l as [|f l IH]; intros book; cbn [fold_left filter map flat_map].
  - now rewrite app_nil_r.
  - destruct (is_image (fst f)); cbn [map flat_map fst snd]; rewrite IH;
      [|reflexivity].
    rewrite add_page_items, <- app_assoc. reflexivity.
Qed.

Lemma fold_add_pages_spine es : forall book,
  spine (fold_left add_pages es book)
  = spine book ++ map (fun p => chapter_of (fst p)) (flat_map pages_of_entry es).
Proof.
  induction es as [|e es IH]; intros book; cbn.
  - now rewrite app_nil_r.
  - rewrite IH, add_pages_spine, map_app, app_assoc. reflexivity.
Qed.

Lemma fold_add_pages_items es : forall book,
  items (fold_left add_pages es book)
  = items book ++ flat_map items_of_page (flat_map pages_of_entry es).
Proof.
  induction es as [|e es IH]; intros book; cbn.
  - now rewrite app_nil_r.
  - rewrite IH, add_pages_items, flat_map_app, app_assoc. reflexivity.
Qed.

Lemma make_book_spine top t :
  spine (make_book top t) = map (fun p => chapter_of (fst p)) (pages top t).
Proof. unfold make_book. cbn. now rewrite fold_add_pages_spine. Qed.

Lemma make_book_toc top t :
  toc (make_book top t) = skipn 1 (spine (make_book top t)).
Proof. reflexivity. Qed.

Lemma make_book_items top t :
  items (make_book top t)
  = flat_map items_of_page (pages top t) ++ [EpubNcx; EpubNav].
Proof.
  unfold make_book. cbn. rewrite fold_add_pages_items. cbn.
  rewrite <- app_assoc. reflexivity.
Qed.

Lemma reading_order_pages top t :
  reading_order (make_book top t) = map fst (pages top t).
Proof.
  unfold reading_order. rewrite make_book_spine, map_map.
  apply map_ext. intros p. apply title_of_chapter.
Qed.

Lemma given_uids_app l1 l2 :
  given_uids (l1 ++ l2) = given_uids l1 ++ given_uids l2.
Proof.
  induction l1 as [|i l1 IH]; cbn; [reflexivity|].
  destruct (uid_of i); cbn; now rewrite IH.
Qed.

(** The identifiers of the image items of a book are the names of its pages,
    in reading order: they are pairwise distinct exactly when no two page
    images of the tree have the same base name. *)
Lemma uids_are_page_names top t :
  given_uids (items (make_book top t)) = reading_order (make_book top t).
Proof.
  rewrite make_book_items, reading_order_pages, given_uids_app. cbn.
  rewrite app_nil_r. induction (pages top t) as [|p l IH]; cbn; [reflexivity|].
  now rewrite IH.
Qed.

Lemma map_skipn {A B} (f : A -> B) n l : map f (skipn n l) = skipn n (map f l).
Proof.
  revert l. induction n as [|n IH]; intros [|x l]; cbn; auto.
Qed.

Lemma pages_of_entry_names e :
  (forall f, In f (snd e) -> Str.has_slash (fst f) = false) ->
  map fst (pages_of_entry e) = dir_pages e.
Proof.
  destruct e as [[root dirs] files]. unfold pages_of_entry, dir_pages.
  cbn [snd]. intros H. rewrite filter_map_fst, map_map. apply map_ext_in.
  intros f Hf. cbn. apply basename_join, H.
  apply filter_In in Hf. destruct Hf as [Hf _].
  eapply Permutation_in; [apply sorted_files_perm|exact Hf].
Qed.

Lemma os_walk_files_wf (t : tree blob) top :
  wf_tree t = true ->
  forall e, In e (os_walk top t) ->
  forall f, In f (snd e) -> Str.has_slash (fst f) = false.
Proof.
  intros Hwf e He f Hf. unfold os_walk in He.
  destruct (String.eqb top EmptyString); [contradiction|].
  apply wf_name_no_slash. eapply walk_files_wf; eauto.
Qed.

Lemma pages_names top t :
  wf_tree t = true -> map fst (pages top t) = flat_map dir_pages (os_walk top t).
Proof.
  intros Hwf. unfold pages.
  pose proof (os_walk_files_wf t top Hwf) as H.
  induction (os_walk top t) as [|e es IH]; cbn; [reflexivity|].
  rewrite map_app, IH, pages_of_entry_names.
  - reflexivity.
  - intros f Hf. apply (H e); [now left|exact Hf].
  - intros e' He'. apply H. now right.
Qed.

(** C1, as the code has it: the reading order goes directory by directory in
    the order of the walk (a directory before its subdirectories, these in
    listing order), and inside each directory by ascending file name over
    that directory's image files; the table of contents follows the same
    order from the second page on. For a tree without subdirectories that is
    the ascending order of all its image files. *)
Theorem reading_order_by_directory top t :
  wf_tree t = true ->
  reading_order (make_book top t) = flat_map dir_pages (os_walk top t)
  /\ (forall e, In e (os_walk top t) ->
        ascending (dir_pages e)
        /\ Permutation (dir_pages e) (filter is_image (map fst (snd e))))
  /\ toc_order (make_book top t) = skipn 1 (reading_order (make_book top t))
  /\ (subdirs_of t = [] -> top <> EmptyString ->
        ascending (reading_order (make_book top t))
        /\ Permutation (reading_order (make_book top t))
                       (filter is_image (map fst (files_of t)))).
Proof.
  intros Hwf.
  assert (Hro : reading_order (make_book top t)
                = flat_map dir_pages (os_walk top t)).
  { rewrite reading_order_pages. now apply pages_names. }
  split; [exact Hro|]. split; [|split].
  - intros e _. split; [apply dir_pages_ascending|apply dir_pages_perm].
  - unfold toc_order, reading_order. rewrite make_book_toc. apply map_skipn.
  - intros Hsub Htop. rewrite Hro. destruct t as [files subdirs].
    cbn in Hsub. subst subdirs. unfold os_walk.
    rewrite (proj2 (String.eqb_neq _ _) Htop). cbn. rewrite app_nil_r.
    split.
    + apply (dir_pages_ascending (top, @nil string, files)).
    + apply (dir_pages_perm (top, @nil string, files)).
Qed.

(** C4: the table of contents is the spine without its first chapter, in
    spine order; the spine has one chapter per image file of the tree, so
    three images give three chapters and two entries. *)
Theorem toc_is_spine_tail top t :
  toc (make_book top t) = skipn 1 (spine (make_book top t))
  /\ (top <> EmptyString ->
      List.length (spine (make_book top t)) = List.length (tree_images t))
  /\ (List.length (spine (make_book top t)) = 3%nat ->
      List.length (toc (make_book top t)) = 2%nat).
Proof.
  split; [apply make_book_toc|]. split.
  - intros Htop. rewrite make_book_spine, length_map. unfold pages, tree_images.
    unfold os_walk. rewrite (proj2 (String.eqb_neq _ _) Htop).
    unfold tree_files.
    assert (H : forall (l : list (string * list string * list (string * blob))),
               List.length (flat_map pages_of_entry l)
               = List.length (filter (fun f => is_image (fst f))
                                (flat_map (fun e => snd e) l))).
    { induction l as [|[[root dirs] files] l IH]; cbn; [reflexivity|].
      rewrite length_app, filter_app, length_app, IH. f_equal.
      rewrite length_map. apply Permutation_length, Permutation_filter.
      apply sorted_files_perm. }
    rewrite H. f_equal. f_equal.
    rewrite !flat_map_concat_map.
    change (map (fun e => snd e) (walk top t)) with (map snd (walk top t)).
    change (map (fun e => snd e) (walk "." t)) with (map snd (walk "." t)).
    now rewrite (walk_files_top t top ".").
  - rewrite make_book_toc, length_skipn. intros ->. reflexivity.
Qed.

(** ** The archive converter *)

Section Converter.

Variable jpeg_writable : string -> bool.
Variable creatable : string -> bool.

Ltac world_fields :=
  cbn [scratch scratch_count made_dirs written stdout find_dir set_dir
       remove_dir].

Ltac leave_block :=
  unfold print, cleanup, with_scratch, after_conversion; world_fields;
  rewrite ?String.eqb_refl; world_fields;
  rewrite ?String.eqb_refl, ?app_nil_r; reflexivity.

Lemma tmpname_not_empty n : String.eqb (tmpname n) EmptyString = false.
Proof. reflexivity. Qed.

(** One conversion, outcome by outcome. *)
Lemma process_cbz_outcome cbz_file archive output_folder quality max_height
  relative_path w :
  process_cbz jpeg_writable creatable cbz_file archive output_folder quality
    max_height relative_path w
  = match archive with
    | None => (after_conversion w (made_dirs w) [] [], Err BadZipFile)
    | Some t =>
        match compress_tree jpeg_writable quality max_height t with
        | (_, Err e) => (after_conversion w (made_dirs w) [] [], Err e)
        | (t', Ok _) =>
            let dir := Path.join output_folder relative_path in
            let epub_path := Path.join dir (epub_name cbz_file) in
            if existsb (String.eqb dir) (made_dirs w) || creatable dir then
              if creatable epub_path then
                (after_conversion w (with_dir dir (made_dirs w))
                   [(epub_path,
                     make_book (tmpname (scratch_count w)) t')]
                   [("✅ Created " ++ epub_path)%string],
                 Ok tt)
              else
                (after_conversion w (with_dir dir (made_dirs w)) [] [],
                 Err (OSError epub_path))
            else (after_conversion w (made_dirs w) [] [], Err (OSError dir))
        end
    end.
Proof.
  unfold process_cbz, with_TemporaryDirectory, mkdtemp, bind.
  destruct archive as [t|]; cbn [extractall]; [|leave_block].
  unfold with_scratch at 1. world_fields. rewrite String.eqb_refl.
  unfold compress_images. rewrite tmpname_not_empty.
  world_fields. rewrite String.eqb_refl.
  destruct (compress_tree jpeg_writable quality max_height t) as [t' [[]|e]];
    [|leave_block].
  unfold with_scratch at 1. world_fields. rewrite String.eqb_refl.
  unfold makedirs, with_dir. world_fields.
  destruct (existsb (String.eqb (Path.join output_folder relative_path))
              (made_dirs w)); cbn [orb];
    [|destruct (creatable (Path.join output_folder relative_path));
      [|leave_block]];
    unfold create_epub, write_epub, epub_name; world_fields;
    rewrite String.eqb_refl; destruct (creatable _); leave_block.
Qed.

Lemma preserves_bind {A B} (P : world -> Prop) (m : M A) (k : A -> M B) :
  preserves P m -> (forall a, preserves P (k a)) -> preserves P (bind m k).
Proof.
  intros Hm Hk w Hw. unfold bind. specialize (Hm w Hw).
  destruct (m w) as [w' [a|e]]; cbn [fst] in *; [now apply Hk|exact Hm].
Qed.

(** A block that only touches its own temporary directory leaves the
    temporary directories as they were, however it ends. *)
Lemma with_TemporaryDirectory_cleans {A} (body : string -> M A) w :
  (forall name, preserves (scratch_headed (scratch w) name) (body name)) ->
  scratch (fst (with_TemporaryDirectory body w)) = scratch w.
Proof.
  intros Hbody. unfold with_TemporaryDirectory, mkdtemp.
  specialize (Hbody (tmpname (scratch_count w))).
  match goal with
  | |- context [body _ ?w1] => specialize (Hbody w1)
  end.
  destruct (body _ _) as [w2 r]. cbn [fst] in *.
  destruct Hbody as [t Ht]; [now exists (Dir [] [])|].
  unfold cleanup, with_scratch. cbn [scratch]. rewrite Ht. cbn [remove_dir].
  now rewrite String.eqb_refl.
Qed.

Lemma extractall_headed base name archive :
  preserves (scratch_headed base name) (extractall archive name).
Proof.
  intros w [t Ht]. destruct archive as [t'|]; cbn [extractall fst];
    [|now exists t].
  exists t'. unfold with_scratch. cbn [scratch]. rewrite Ht. cbn [set_dir].
  now rewrite String.eqb_refl.
Qed.

Lemma compress_images_headed base name quality max_height :
  preserves (scratch_headed base name)
    (compress_images jpeg_writable name quality max_height).
Proof.
  intros w [t Ht]. unfold compress_images.
  destruct (String.eqb name EmptyString); [now exists t|].
  rewrite Ht. cbn [find_dir]. rewrite String.eqb_refl.
  destruct (compress_tree jpeg_writable quality max_height t) as [t' r].
  exists t'. unfold with_scratch. cbn [fst scratch]. rewrite Ht. cbn [set_dir].
  now rewrite String.eqb_refl.
Qed.

Lemma makedirs_headed base name path :
  preserves (scratch_headed base name) (makedirs creatable path).
Proof.
  intros w Hw. unfold makedirs.
  destruct (existsb _ _); [exact Hw|]. destruct (creatable path); exact Hw.
Qed.

Lemma create_epub_headed base name path :
  preserves (scratch_headed base name) (create_epub creatable name path).
Proof.
  intros w Hw. unfold create_epub, write_epub.
  destruct (creatable path); exact Hw.
Qed.

Lemma print_headed base name line :
  preserves (scratch_headed base name) (print line).
Proof. intros w Hw. exact Hw. Qed.

(** C9: whatever way a conversion ends, by its last statement or by an
    exception of the extraction, of the image normaliser, of the directory
    creation or of the write, the temporary directories that exist afterwards
    are those that existed before: the one the conversion made (it did make
    one: a name is used up) is gone. *)
Theorem scratch_is_removed cbz_file archive output_folder quality max_height
  relative_path w :
  scratch (fst (process_cbz jpeg_writable creatable cbz_file archive
                  output_folder quality max_height relative_path w))
  = scratch w
  /\ scratch_count (fst (process_cbz jpeg_writable creatable cbz_file archive
                           output_folder quality max_height relative_path w))
     = S (scratch_count w)
  /\ scratch_headed (scratch w) (tmpname (scratch_count w)) (snd (mkdtemp w)).
Proof.
  split; [|split].
  - unfold process_cbz. apply with_TemporaryDirectory_cleans. intros name.
    apply preserves_bind; [apply extractall_headed|intros _].
    apply preserves_bind; [apply compress_images_headed|intros _].
    apply preserves_bind; [apply makedirs_headed|intros _].
    apply preserves_bind; [apply create_epub_headed|intros _].
    apply print_headed.
  - rewrite process_cbz_outcome.
    destruct archive as [t|]; [|reflexivity].
    destruct (compress_tree jpeg_writable quality max_height t) as [t' [[]|e]];
      [|reflexivity].
    cbv zeta. destruct (_ || _); [|reflexivity].
    destruct (creatable _); reflexivity.
  - now exists (Dir [] []).
Qed.

End Converter.

(** ** [compress_images] over a tree *)

Section CompressTree.

Variable jpeg_writable : string -> bool.
Variables quality max_height : Z.

Lemma compress_files_ok files : forall files',
  compress_files jpeg_writable quality max_height files = (files', Ok tt) ->
  Forall2 (compressed jpeg_writable quality max_height) files files'.
Proof.
  induction files as [|[file b] rest IH]; intros files' H;
    cbn [compress_files] in H.
  - injection H as <-. constructor.
  - destruct (is_image file) eqn:Hi.
    + destruct (compress_image jpeg_writable quality max_height b) as [b'|e]
        eqn:Hb; [|discriminate].
      destruct (compress_files jpeg_writable quality max_height rest)
        as [rest' r]. injection H as <- ->.
      constructor; [|now apply IH].
      split; [reflexivity|]. cbn [fst snd]. now rewrite Hi.
    + destruct (compress_files jpeg_writable quality max_height rest)
        as [rest' r]. injection H as <- ->.
      constructor; [|now apply IH].
      split; [reflexivity|]. cbn [fst snd]. now rewrite Hi.
Qed.

Lemma tree_files_Dir {A} (files : list (string * A)) subdirs :
  tree_files (Dir files subdirs)
  = files ++ flat_map (fun dc => tree_files (snd dc)) subdirs.
Proof.
  unfold tree_files. cbn. f_equal.
  induction subdirs as [|[d c] rest IH]; cbn; [reflexivity|].
  rewrite flat_map_app, IH. f_equal.
  rewrite !flat_map_concat_map.
  change (map (fun e => snd e) (walk (Path.join "." d) c))
    with (map snd (walk (Path.join "." d) c)).
  change (map (fun e => snd e) (walk "." c)) with (map snd (walk "." c)).
  now rewrite (walk_files_top c (Path.join "." d) ".").
Qed.

(** A pass that goes through leaves the tree as it was, each image file
    replaced by what [compress_image] wrote for it. *)
Lemma compress_tree_ok t : forall t',
  compress_tree jpeg_writable quality max_height t = (t', Ok tt) ->
  Forall2 (compressed jpeg_writable quality max_height) (tree_files t) (tree_files t').
Proof.
  induction t as [files subdirs IH] using tree_induction.
  intros t' H. cbn [compress_tree] in H.
  destruct (compress_files jpeg_writable quality max_height files)
    as [files' [[]|e]] eqn:Hf; [|discriminate].
  apply compress_files_ok in Hf.
  set (each := compress_subdirs (compress_tree jpeg_writable quality max_height)) in *.
  destruct (each subdirs) as [subdirs' r'] eqn:Hs.
  injection H as <- ->. rewrite !tree_files_Dir.
  apply Forall2_app; [exact Hf|]. clear Hf.
  revert subdirs' Hs.
  induction subdirs as [|[d c] rest IHrest]; intros subdirs' Hs; cbn [each compress_subdirs] in Hs.
  - injection Hs as <-. constructor.
  - destruct (compress_tree jpeg_writable quality max_height c)
      as [c' [[]|e]] eqn:Hc; [|discriminate].
    destruct (each rest) as [rest' rr] eqn:Hr. injection Hs as <- ->.
    cbn. apply Forall2_app.
    + inversion IH as [|? ? Hhead _]; subst. now apply Hhead.
    + apply IHrest; [|reflexivity]. now inversion IH.
Qed.

(** A pass goes through only if every image file of the tree does. *)
Lemma compress_tree_ok_all t t' :
  compress_tree jpeg_writable quality max_height t = (t', Ok tt) ->
  forall f, In f (tree_files t) -> is_image (fst f) = true ->
  exists b, compress_image jpeg_writable quality max_height (snd f) = Ok b.
Proof.
  intros H f Hf Hi. apply compress_tree_ok in H.
  induction H as [|g g' l l' Hg _ IH]; [contradiction|].
  destruct Hf as [->|Hf]; [|now apply IH].
  destruct Hg as [_ Hg]. rewrite Hi in Hg. eauto.
Qed.

End CompressTree.

(** ** The image normaliser, image by image and over an archive *)

Section NormalizerProperties.

Variable jpeg_writable : string -> bool.
Variables quality max_height : Z.

(** What holds of every image written holds of every page of a tree the
    normaliser went through. *)
Lemma compress_tree_normalised (P : image -> image -> Prop) :
  (forall img b,
      compress_image jpeg_writable quality max_height (Bytes (Some img)) = Ok b ->
      exists out, b = Jpeg quality out /\ P img out) ->
  forall t t',
    compress_tree jpeg_writable quality max_height t = (t', Ok tt) ->
    Forall2 (normalised quality P) (tree_files t) (tree_files t').
Proof.
  intros HP t t' H. apply compress_tree_ok in H.
  eapply Forall2_impl; [|exact H].
  intros f f' [Hn Hc]. split; [exact Hn|]. split.
  - intros Hi. now rewrite Hi in Hc.
  - intros Hi img Himg. rewrite Hi, Himg in Hc.
    destruct (HP _ _ Hc) as (out & Hb & Hout). exists out. now rewrite Hb.
Qed.


(** C6: whatever the normaliser writes for a decoded image is not in palette
    mode, and a palette image is written in RGB: the conversion is done on
    the decoded image, before the resize and the encoder see it. So in an
    archive the normaliser went through, no page is in palette mode. *)
Theorem palette_never_written :
  (forall img b,
      compress_image jpeg_writable quality max_height (Bytes (Some img)) = Ok b ->
      exists out,
        b = Jpeg quality out
        /\ mode out <> "P"%string
        /\ (mode img = "P"%string -> mode out = "RGB"%string))
  /\ (forall t t',
         compress_tree jpeg_writable quality max_height t = (t', Ok tt) ->
         Forall2
           (normalised quality
              (fun img out =>
                 mode out <> "P"%string
                 /\ (mode img = "P"%string -> mode out = "RGB"%string)))
           (tree_files t) (tree_files t')).
Proof.
  assert (H1 : forall img b,
             compress_image jpeg_writable quality max_height (Bytes (Some img))
             = Ok b ->
             exists out,
               b = Jpeg quality out
               /\ mode out <> "P"%string
               /\ (mode img = "P"%string -> mode out = "RGB"%string)).
  { intros img b H. apply compress_image_ok in H.
    destruct H as (out & -> & Hm & _ & _). exists out. split; [reflexivity|].
    rewrite Hm. split; [apply normal_mode_not_P|].
    intros ->. reflexivity. }
  split; [exact H1|]. apply compress_tree_normalised. exact H1.
Qed.


End NormalizerProperties.

(** ** The batch driver *)

Lemma for_each_app {A} (l1 l2 : list A) body w :
  for_each (l1 ++ l2) body w
  = match for_each l1 body w with
    | (w1, Ok _) => for_each l2 body w1
    | (w1, Err e) => (w1, Err e)
    end.
Proof.
  revert w. induction l1 as [|x l1 IH]; intros w; cbn; [reflexivity|].
  unfold bind. destruct (body x w) as [w' [[]|e]]; [apply IH|reflexivity].
Qed.

Lemma for_each_flat_map {A B} (f : A -> list B) l body w :
  for_each (flat_map f l) body w = for_each l (fun x => for_each (f x) body) w.
Proof.
  revert w. induction l as [|x l IH]; intros w; cbn; [reflexivity|].
  rewrite for_each_app. unfold bind.
  destruct (for_each (f x) body w) as [w' [[]|e]]; [apply IH|reflexivity].
Qed.

Lemma for_each_map {A B} (g : A -> B) l body w :
  for_each (map g l) body w = for_each l (fun x => body (g x)) w.
Proof.
  revert w. induction l as [|x l IH]; intros w; cbn; [reflexivity|].
  unfold bind. destruct (body (g x) w) as [w' [[]|e]]; [apply IH|reflexivity].
Qed.

Lemma for_each_ext {A} (l : list A) body body' w :
  (forall x w, In x l -> body x w = body' x w) ->
  for_each l body w = for_each l body' w.
Proof.
  revert w. induction l as [|x l IH]; intros w H; cbn; [reflexivity|].
  unfold bind. rewrite (H x w (or_introl eq_refl)).
  destruct (body' x w) as [w' [[]|e]]; [|reflexivity].
  apply IH. intros y w0 Hy. apply H. now right.
Qed.

Lemma join_not_empty a b : a <> EmptyString -> Path.join a b <> EmptyString.
Proof.
  intros Ha. unfold Path.join.
  destruct (Str.starts_with_slash b) eqn:Hb.
  - destruct b; [discriminate|congruence].
  - destruct (_ || _); destruct a; cbn; congruence.
Qed.

Lemma walk_roots_not_empty {A} (t : tree A) : forall top,
  top <> EmptyString ->
  forall e, In e (walk top t) -> fst (fst e) <> EmptyString.
Proof.
  induction t as [files subdirs IH] using tree_induction.
  intros top Htop e He. cbn in He. destruct He as [<-|He]; [exact Htop|].
  apply in_flat_map in He. destruct He as ([d c] & Hdc & He).
  rewrite Forall_forall in IH.
  apply (IH _ Hdc (Path.join top d)); [now apply join_not_empty|exact He].
Qed.

Lemma os_walk_roots_not_empty {A} (t : tree A) top e :
  In e (os_walk top t) -> fst (fst e) <> EmptyString.
Proof.
  unfold os_walk. destruct (String.eqb_spec top EmptyString) as [|Htop];
    [contradiction|].
  now apply walk_roots_not_empty.
Qed.

Lemma relpath_ok cwd path start :
  path <> EmptyString -> exists rel, Path.relpath cwd path start = Ok rel.
Proof.
  intros Hp. unfold Path.relpath. rewrite (proj2 (String.eqb_neq _ _) Hp).
  cbv zeta. destruct (_ ++ _); eauto.
Qed.

Section Driver.

Variable cwd : string.
Variable jpeg_writable : string -> bool.
Variable creatable : string -> bool.
Variables input_folder output_folder : string.
Variables quality max_height : Z.

Let job := run_job jpeg_writable creatable output_folder quality max_height.

Lemma process_dir_jobs e w :
  fst (fst e) <> EmptyString ->
  process_dir cwd jpeg_writable creatable input_folder output_folder quality
    max_height e w
  = for_each (dir_jobs cwd input_folder e) job w.
Proof.
  destruct e as [[root dirs] files]. cbn [fst]. intros Hroot.
  unfold process_dir, dir_jobs.
  destruct (relpath_ok cwd root input_folder Hroot) as [rel ->].
  rewrite for_each_map.
  destruct (filter (fun f => is_cbz (fst f)) files) as [|f l] eqn:Hl;
    [reflexivity|].
  apply for_each_ext. intros [cbz_file archive] w0 _. reflexivity.
Qed.

(** The driver runs the conversions of the batch one after the other. *)
Lemma process_folder_jobs input w :
  process_folder cwd jpeg_writable creatable input_folder output_folder
    quality max_height input w
  = for_each (jobs cwd input_folder input) job w.
Proof.
  unfold process_folder, jobs. rewrite for_each_flat_map.
  apply for_each_ext. intros e w0 He. apply process_dir_jobs.
  eapply os_walk_roots_not_empty, He.
Qed.

(** C3, as the code has it: the failure of an unreadable archive leaves the
    driver as an exception and ends the batch. The archives met before it
    are converted; the unreadable one and every archive after it are not:
    nothing more is written, made or printed. *)
Theorem bad_archive_ends_batch input pre cbz_file relative_path post w w1 :
  jobs cwd input_folder input = pre ++ (cbz_file, None, relative_path) :: post ->
  for_each pre job w = (w1, Ok tt) ->
  snd (process_folder cwd jpeg_writable creatable input_folder output_folder
         quality max_height input w) = Err BadZipFile
  /\ written (fst (process_folder cwd jpeg_writable creatable input_folder
                     output_folder quality max_height input w)) = written w1
  /\ made_dirs (fst (process_folder cwd jpeg_writable creatable input_folder
                       output_folder quality max_height input w)) = made_dirs w1
  /\ stdout (fst (process_folder cwd jpeg_writable creatable input_folder
                    output_folder quality max_height input w)) = stdout w1
  /\ scratch (fst (process_folder cwd jpeg_writable creatable input_folder
                     output_folder quality max_height input w)) = scratch w1.
Proof.
  intros Hjobs Hpre.
  assert (E : process_folder cwd jpeg_writable creatable input_folder
                output_folder quality max_height input w
              = (after_conversion w1 (made_dirs w1) [] [], Err BadZipFile)).
  { rewrite process_folder_jobs, Hjobs, for_each_app, Hpre.
    cbn [for_each]. unfold bind.
    change (job (cbz_file, None, relative_path) w1)
      with (process_cbz jpeg_writable creatable cbz_file None output_folder
              quality max_height relative_path w1).
    rewrite process_cbz_outcome. reflexivity. }
  rewrite E. cbn. rewrite !app_nil_r. repeat split.
Qed.

End Driver.

(** C10: an archive with an image file whose mode is not ['P'] and which the
    JPEG encoder does not accept is not converted: the conversion ends with
    an exception and writes no book. When the image needs no resizing the
    exception is the encoder's. Only ['P'] is converted: an image in any
    other mode reaches the encoder in the mode it was decoded in. *)
Theorem unwritable_mode_fails_conversion (jpeg_writable creatable : string -> bool)
  cbz_file t output_folder quality max_height relative_path w name img :
  In (name, Bytes (Some img)) (tree_files t) ->
  is_image name = true ->
  mode img <> "P" ->
  jpeg_writable (mode img) = false ->
  (exists e,
      snd (process_cbz jpeg_writable creatable cbz_file (Some t) output_folder
             quality max_height relative_path w) = Err e)
  /\ written (fst (process_cbz jpeg_writable creatable cbz_file (Some t)
                     output_folder quality max_height relative_path w))
     = written w
  /\ (height img <= max_height ->
      compress_image jpeg_writable quality max_height (Bytes (Some img))
      = Err (OSError ("cannot write mode " ++ mode img ++ " as JPEG")%string))
  /\ (forall other b,
        mode other <> "P" ->
        compress_image jpeg_writable quality max_height (Bytes (Some other))
        = Ok b ->
        exists out, b = Jpeg quality out /\ mode out = mode other).
Proof.
  intros Hin Himg HP Hw.
  assert (Hn : forall m, m <> "P" -> normal_mode m = m).
  { intros m Hm. unfold normal_mode.
    now rewrite (proj2 (String.eqb_neq _ _) Hm). }
  assert (Hfail : forall t',
             compress_tree jpeg_writable quality max_height t <> (t', Ok tt)).
  { intros t' H.
    destruct (compress_tree_ok_all _ _ _ _ _ H _ Hin Himg) as [b Hb].
    destruct (compress_image_refused jpeg_writable quality max_height img)
      as [e He]; [now rewrite Hn|].
    cbn [snd] in Hb. congruence. }
  rewrite process_cbz_outcome.
  destruct (compress_tree jpeg_writable quality max_height t)
    as [t' [[]|e]] eqn:Ht; [now destruct (Hfail t')|].
  split; [now exists e|]. split; [cbn; apply app_nil_r|]. split.
  - intros Hh. rewrite (compress_image_small _ _ _ _ Hh). unfold save.
    cbn [mode]. now rewrite (Hn _ HP), Hw.
  - intros other b Ho Hb. apply compress_image_ok in Hb.
    destruct Hb as (out & -> & Hm & _). exists out.
    now rewrite Hm, (Hn _ Ho).
Qed.

(** ** Relative paths of the directories of a walk *)

#[local] Open Scope string_scope.



























Section Relpath.

Variable cwd : string.
Hypothesis cwd_absolute : Str.starts_with_slash cwd = true.



End Relpath.

(** ** The name of the book *)

#[local] Open Scope string_scope.

Lemma rsplit_at_no_dot e :
  Str.has_dot e = false -> Str.rsplit_at "." e = None.
Proof.
  induction e as [|a e IH]; cbn; [reflexivity|].
  intros H. apply orb_false_iff in H. destruct H as [Ha He].
  rewrite (IH He), Ha. reflexivity.
Qed.

Lemma rsplit_at_dot r e :
  Str.has_dot e = false -> Str.rsplit_at "." (r ++ String "." e) = Some (r, e).
Proof.
  intros He. induction r as [|a r IH]; cbn.
  - now rewrite (rsplit_at_no_dot _ He).
  - now rewrite IH.
Qed.

Lemma has_slash_app a b :
  Str.has_slash (a ++ b) = Str.has_slash a || Str.has_slash b.
Proof.
  induction a as [|c a IH]; cbn; [reflexivity|].
  now rewrite IH, orb_assoc.
Qed.

Lemma span_dots_app stem ext :
  snd (Str.span_dots stem) <> EmptyString ->
  Str.span_dots (stem ++ ext)
  = (fst (Str.span_dots stem), snd (Str.span_dots stem) ++ ext).
Proof.
  induction stem as [|c stem IH]; cbn; [contradiction|].
  destruct (Ascii.eqb c "."); [|reflexivity].
  destruct (Str.span_dots stem) as [d t] eqn:E. cbn [fst snd] in *.
  intros H. rewrite (IH H). reflexivity.
Qed.

Lemma span_dots_eq s :
  fst (Str.span_dots s) ++ snd (Str.span_dots s) = s.
Proof.
  induction s as [|c s IH]; cbn; [reflexivity|].
  destruct (Ascii.eqb c "."); [|reflexivity].
  destruct (Str.span_dots s) as [d t]. cbn in *. now rewrite IH.
Qed.

(** The extension of a name [stem.e], when [stem] is not made of dots only
    and [e] has no dot: [splitext] cuts at that last dot. *)
Lemma splitext_name stem e :
  Str.has_slash stem = false -> Str.has_slash e = false ->
  Str.has_dot e = false ->
  snd (Str.span_dots stem) <> EmptyString ->
  Path.splitext (stem ++ String "." e) = (stem, String "." e).
Proof.
  intros Hs He Hd Hstem. unfold Path.splitext.
  rewrite rsplit_at_no_slash
    by (rewrite has_slash_app, Hs; cbn; exact He).
  rewrite (span_dots_app _ _ Hstem), rsplit_at_dot by exact Hd.
  cbn [append]. now rewrite span_dots_eq.
Qed.

Example epub_name_vol1 : epub_name "/in/seriesA/vol1.cbz" = "vol1.epub".
Proof. reflexivity. Qed.

(** ** Where the books go *)

#[local] Open Scope list_scope.









Section Mirror.

Variable cwd : string.
Variable jpeg_writable : string -> bool.
Variable creatable : string -> bool.
Variables input_folder output_folder : string.
Variables quality max_height : Z.




End Mirror.

(** ** The properties on the example inputs *)

#[local] Open Scope list_scope.

Example three_pages_reading_order :
  reading_order (make_book "/tmp/tmp0" three_pages) = ["a.jpg"; "b.jpg"; "c.jpg"]
  /\ toc_order (make_book "/tmp/tmp0" three_pages) = ["b.jpg"; "c.jpg"].
Proof. split; reflexivity. Qed.

Example series_folder_output :
  map fst (written (fst (process_folder "/home/u" RAWMODE always "/in" "/out"
                           80 1024 series_folder empty_world)))
  = ["/out/seriesA/vol1.epub"].
Proof. vm_compute. reflexivity. Qed.

(** The four ways a conversion can end, each with no temporary directory
    left: its last statement, an unreadable archive, a page that does not
    decode, and an output path that cannot be created. *)
Example conversion_exits :
  process_cbz RAWMODE always "/in/v.cbz" (Some three_pages) "/out" 80 1024 "."
    empty_world
  = (after_conversion empty_world ["/out/."%string]
       [("/out/./v.epub"%string,
         make_book "/tmp/tmp0"
           (fst (compress_tree RAWMODE 80 1024 three_pages)))]
       ["✅ Created /out/./v.epub"%string], Ok tt)
  /\ process_cbz RAWMODE always "/in/v.cbz" None "/out" 80 1024 "." empty_world
     = (after_conversion empty_world [] [] [], Err BadZipFile)
  /\ process_cbz RAWMODE always "/in/v.cbz" (Some broken_page) "/out" 80 1024
       "." empty_world
     = (after_conversion empty_world [] [] [], Err UnidentifiedImageError)
  /\ process_cbz RAWMODE (fun _ => false) "/in/v.cbz" (Some three_pages) "/out"
       80 1024 "." empty_world
     = (after_conversion empty_world [] [] [], Err (OSError "/out/.")).
Proof. repeat split; vm_compute; reflexivity. Qed.

Lemma reading_order_by_directory_witness :
  wf_tree three_pages = true
  /\ (reading_order (make_book "/tmp/tmp0" three_pages)
      = flat_map dir_pages (os_walk "/tmp/tmp0" three_pages)
      /\ (forall e, In e (os_walk "/tmp/tmp0" three_pages) ->
            ascending (dir_pages e)
            /\ Permutation (dir_pages e) (filter is_image (map fst (snd e))))
      /\ toc_order (make_book "/tmp/tmp0" three_pages)
         = skipn 1 (reading_order (make_book "/tmp/tmp0" three_pages))
      /\ (subdirs_of three_pages = [] -> "/tmp/tmp0"%string <> EmptyString ->
            ascending (reading_order (make_book "/tmp/tmp0" three_pages))
            /\ Permutation (reading_order (make_book "/tmp/tmp0" three_pages))
                 (filter is_image (map fst (files_of three_pages))))).
Proof.
  split; [reflexivity|].
  apply (reading_order_by_directory "/tmp/tmp0" three_pages). reflexivity.
Defined.

Lemma nested_pages_not_ascending :
  ~ spec_reading_order_ascending "/tmp/tmp0" nested_pages.
Proof.
  intros [H _]. vm_compute in H. inversion H as [|a l _ Hall]; subst.
  inversion Hall as [|b l' Hle _]; subst. discriminate Hle.
Qed.



Lemma bad_archive_ends_batch_witness :
  jobs "/home/u" "/in" good_bad_good
  = [("/in/a.cbz", Some three_pages, "."%string)]
    ++ ("/in/b.cbz"%string, None, "."%string)
    :: [("/in/c.cbz", Some nested_pages, "."%string)]
  /\ for_each [("/in/a.cbz", Some three_pages, "."%string)]
       (run_job RAWMODE always "/out" 80 1024) empty_world
     = (fst (process_cbz RAWMODE always "/in/a.cbz" (Some three_pages) "/out"
               80 1024 "." empty_world), Ok tt)
  /\ snd (process_folder "/home/u" RAWMODE always "/in" "/out" 80 1024
            good_bad_good empty_world) = Err BadZipFile
  /\ map fst (written (fst (process_folder "/home/u" RAWMODE always "/in"
                              "/out" 80 1024 good_bad_good empty_world)))
     = ["/out/./a.epub"].
Proof.
  assert (H1 : jobs "/home/u" "/in" good_bad_good
               = [("/in/a.cbz", Some three_pages, "."%string)]
                 ++ ("/in/b.cbz"%string, None, "."%string)
                 :: [("/in/c.cbz", Some nested_pages, "."%string)])
    by (vm_compute; reflexivity).
  assert (H2 : for_each [("/in/a.cbz", Some three_pages, "."%string)]
                 (run_job RAWMODE always "/out" 80 1024) empty_world
               = (fst (process_cbz RAWMODE always "/in/a.cbz"
                         (Some three_pages) "/out" 80 1024 "." empty_world),
                  Ok tt))
    by (vm_compute; reflexivity).
  split; [exact H1|]. split; [exact H2|].
  destruct (bad_archive_ends_batch "/home/u" RAWMODE always "/in" "/out" 80
              1024 good_bad_good _ _ _ _ _ _ H1 H2) as (Hr & Hw & _).
  split; [exact Hr|]. rewrite Hw. vm_compute. reflexivity.
Defined.

Lemma bad_then_good_not_converted :
  ~ spec_siblings_still_converted "/home/u" RAWMODE always "/in" "/out" 80 1024
      bad_then_good.
Proof.
  intros H.
  assert (Hj : In ("/in/good.cbz"%string, Some three_pages, "."%string)
                 (jobs "/home/u" "/in" bad_then_good))
    by (vm_compute; right; left; reflexivity).
  destruct (H _ _ _ Hj) as [book Hb]. vm_compute in Hb. exact Hb.
Qed.

Lemma toc_is_spine_tail_witness :
  "/tmp/tmp0"%string <> EmptyString
  /\ List.length (spine (make_book "/tmp/tmp0" three_pages)) = 3%nat
  /\ toc (make_book "/tmp/tmp0" three_pages)
     = skipn 1 (spine (make_book "/tmp/tmp0" three_pages))
  /\ List.length (spine (make_book "/tmp/tmp0" three_pages))
     = List.length (tree_images three_pages)
  /\ List.length (toc (make_book "/tmp/tmp0" three_pages)) = 2%nat.
Proof.
  destruct (toc_is_spine_tail "/tmp/tmp0" three_pages) as (Ht & Hn & H3).
  assert (Hne : "/tmp/tmp0"%string <> EmptyString) by discriminate.
  assert (Hl : List.length (spine (make_book "/tmp/tmp0" three_pages)) = 3%nat)
    by reflexivity.
  split; [exact Hne|]. split; [exact Hl|]. split; [exact Ht|].
  split; [exact (Hn Hne)|exact (H3 Hl)].
Defined.


Lemma palette_never_written_witness :
  compress_image RAWMODE 80 1024 (Bytes (Some palette_page))
  = Ok (Jpeg 80 {| mode := "RGB"; width := 800; height := 600 |})
  /\ compress_tree RAWMODE 80 1024 mixed_pages = (mixed_pages_done, Ok tt)
  /\ (exists out,
        Jpeg 80 {| mode := "RGB"; width := 800; height := 600 |} = Jpeg 80 out
        /\ mode out <> "P"%string
        /\ (mode palette_page = "P"%string -> mode out = "RGB"%string))
  /\ Forall2
       (normalised 80
          (fun img out =>
             mode out <> "P"%string
             /\ (mode img = "P"%string -> mode out = "RGB"%string)))
       (tree_files mixed_pages) (tree_files mixed_pages_done).
Proof.
  assert (H1 : compress_image RAWMODE 80 1024 (Bytes (Some palette_page))
               = Ok (Jpeg 80 {| mode := "RGB"; width := 800; height := 600 |}))
    by (vm_compute; reflexivity).
  assert (H2 : compress_tree RAWMODE 80 1024 mixed_pages
               = (mixed_pages_done, Ok tt)) by (vm_compute; reflexivity).
  destruct (palette_never_written RAWMODE 80 1024) as [Himg Htree].
  split; [exact H1|]. split; [exact H2|].
  split; [exact (Himg _ _ H1)|exact (Htree _ _ H2)].
Defined.


(** C8: on an archive with two chapters that each hold a [001.jpg], the book
    written has two image items with the identifier [001.jpg]: the
    identifier is the base name of the file, and the directory is lost. *)
Theorem same_names_share_uid :
  map (fun pb => given_uids (items (snd pb)))
    (written (fst (process_cbz RAWMODE always "/in/vol.cbz" (Some same_names)
                     "/out" 80 1024 "." empty_world)))
  = [["001.jpg"%string; "001.jpg"%string]]
  /\ ~ NoDup (given_uids (items (make_book "/tmp/tmp0" same_names))).
Proof.
  split; [vm_compute; reflexivity|].
  vm_compute. intros H. inversion H as [|x l Hx _]; subst. apply Hx. now left.
Qed.

Lemma unwritable_mode_fails_conversion_witness :
  In ("cover.png"%string,
      Bytes (Some {| mode := "RGBA"; width := 800; height := 600 |}))
    (tree_files rgba_page)
  /\ is_image "cover.png" = true
  /\ "RGBA"%string <> "P"%string
  /\ RAWMODE "RGBA" = false
  /\ (exists e,
        snd (process_cbz RAWMODE always "/in/vol.cbz" (Some rgba_page) "/out"
               80 1024 "." empty_world) = Err e)
  /\ written (fst (process_cbz RAWMODE always "/in/vol.cbz" (Some rgba_page)
                     "/out" 80 1024 "." empty_world)) = []
  /\ compress_image RAWMODE 80 1024
       (Bytes (Some {| mode := "RGBA"; width := 800; height := 600 |}))
     = Err (OSError "cannot write mode RGBA as JPEG").
Proof.
  assert (H1 : In ("cover.png"%string,
                   Bytes (Some {| mode := "RGBA"; width := 800;
                                  height := 600 |}))
                 (tree_files rgba_page)) by (left; reflexivity).
  assert (H2 : is_image "cover.png" = true) by reflexivity.
  assert (H3 : "RGBA"%string <> "P"%string) by discriminate.
  assert (H4 : RAWMODE "RGBA" = false) by reflexivity.
  destruct (unwritable_mode_fails_conversion RAWMODE always "/in/vol.cbz"
              rgba_page "/out" 80 1024 "." empty_world "cover.png"
              {| mode := "RGBA"; width := 800; height := 600 |}
              H1 H2 H3 H4) as (He & Hw & Hs & _).
  split; [exact H1|]. split; [exact H2|]. split; [exact H3|].
  split; [exact H4|]. split; [exact He|]. split; [exact Hw|].
  apply Hs. vm_compute. discriminate.
Defined.

(** ** More about the image normaliser *)

#[local] Open Scope Z_scope.
#[local] Open Scope string_scope.
#[local] Open Scope list_scope.

Section NormalizerMore.

Variable jpeg_writable : string -> bool.
Variables quality max_height : Z.



Lemma compress_files_names files :
  map fst (fst (compress_files jpeg_writable quality max_height files))
  = map fst files.
Proof.
  induction files as [|[file b] rest IH]; cbn [compress_files];
    [reflexivity|].
  destruct (is_image file).
  - destruct (compress_image jpeg_writable quality max_height b);
      [|reflexivity].
    destruct (compress_files jpeg_writable quality max_height rest).
    cbn in *. now rewrite IH.
  - destruct (compress_files jpeg_writable quality max_height rest).
    cbn in *. now rewrite IH.
Qed.

Lemma listing_Dir {A} top (files : list (string * A)) subdirs :
  listing top (Dir files subdirs)
  = (top, map fst subdirs, map fst files)
      :: flat_map (fun dc => listing (Path.join top (fst dc)) (snd dc)) subdirs.
Proof.
  unfold listing. cbn [walk map fst snd]. f_equal.
  induction subdirs as [|[d c] rest IH]; cbn; [reflexivity|].
  now rewrite map_app, IH.
Qed.

Lemma compress_tree_listing t : forall top,
  listing top (fst (compress_tree jpeg_writable quality max_height t))
  = listing top t.
Proof.
  induction t as [files subdirs IH] using tree_induction.
  intros top. cbn [compress_tree].
  pose proof (compress_files_names files) as Hn.
  destruct (compress_files jpeg_writable quality max_height files)
    as [files' [[]|e]]; cbn [fst] in Hn.
  - set (each := compress_subdirs
                   (compress_tree jpeg_writable quality max_height)).
    assert (Hs : map fst (fst (each subdirs)) = map fst subdirs
                 /\ flat_map
                      (fun dc => listing (Path.join top (fst dc)) (snd dc))
                      (fst (each subdirs))
                    = flat_map
                        (fun dc => listing (Path.join top (fst dc)) (snd dc))
                        subdirs).
    { induction subdirs as [|[d c] rest IHr];
        cbn [each compress_subdirs]; [split; reflexivity|].
      inversion IH as [|? ? Hc Hrest]; subst. cbn [snd] in Hc.
      specialize (Hc (Path.join top d)).
      destruct (compress_tree jpeg_writable quality max_height c)
        as [c' [[]|e]]; cbn [fst] in Hc.
      - fold each. destruct (IHr Hrest) as [H1 H2].
        destruct (each rest) as [rest' rr]. cbn [fst snd flat_map map] in *.
        now rewrite Hc, H1, H2.
      - cbn [fst snd flat_map map]. now rewrite Hc. }
    destruct Hs as [Hd Hl].
    destruct (each subdirs) as [subdirs' r']. cbn [fst] in *.
    now rewrite !listing_Dir, Hn, Hd, Hl.
  - cbn [fst]. now rewrite !listing_Dir, Hn.
Qed.

(** X1: the normaliser rewrites files in place and does nothing else to the
    tree: whether it goes through or stops at an exception, [os.walk] yields
    the same directories, subdirectory names and file names afterwards; and
    when it goes through, a file that is not a page image holds what it
    held. *)
Theorem compress_keeps_layout t :
  (forall top,
      listing top (fst (compress_tree jpeg_writable quality max_height t))
      = listing top t)
  /\ (forall t',
         compress_tree jpeg_writable quality max_height t = (t', Ok tt) ->
         Forall2
           (fun f f' =>
              fst f' = fst f /\ (is_image (fst f) = false -> snd f' = snd f))
           (tree_files t) (tree_files t')).
Proof.
  split; [intros top; apply compress_tree_listing|].
  intros t' H. apply compress_tree_ok in H.
  eapply Forall2_impl; [|exact H].
  intros f f' [Hn Hc]. split; [exact Hn|]. intros Hi. now rewrite Hi in Hc.
Qed.



End NormalizerMore.

(** ** Which files are pages, which are archives *)

#[local] Open Scope string_scope.

Lemma endswith_app pre suffix : Str.endswith (pre ++ suffix) suffix = true.
Proof.
  induction pre as [|c pre IH]; cbn [append].
  - destruct suffix; cbn; [reflexivity|]. now rewrite Ascii.eqb_refl, String.eqb_refl.
  - cbn [Str.endswith]. now destruct (String.eqb (String c (pre ++ suffix)) suffix).
Qed.

Lemma endswith_inv s suffix :
  Str.endswith s suffix = true -> exists pre, s = pre ++ suffix.
Proof.
  induction s as [|c s IH]; cbn [Str.endswith].
  - destruct (String.eqb_spec EmptyString suffix) as [<-|]; [|discriminate].
    intros _. now exists EmptyString.
  - destruct (String.eqb_spec (String c s) suffix) as [<-|].
    + intros _. now exists EmptyString.
    + intros H. destruct (IH H) as [pre ->]. now exists (String c pre).
Qed.

Lemma lower_app a b : Str.lower (a ++ b) = Str.lower a ++ Str.lower b.
Proof. induction a as [|c a IH]; cbn; [reflexivity|]. now rewrite IH. Qed.

Lemma lower_app_inv s : forall a b,
  Str.lower s = a ++ b ->
  exists x y, s = x ++ y /\ Str.lower x = a /\ Str.lower y = b.
Proof.
  induction s as [|c s IH]; intros a b H.
  - destruct a; [|discriminate]. cbn in H. subst b.
    now exists EmptyString, EmptyString.
  - destruct a as [|c' a].
    + cbn [append] in H. exists EmptyString, (String c s). auto.
    + cbn in H. injection H as Hc Hs.
      destruct (IH _ _ Hs) as (x & y & -> & Hx & Hy).
      exists (String c x), y. cbn. rewrite Hx, Hc. auto.
Qed.

(** A name whose lower-case form ends in [suffix]. *)
Lemma lower_endswith_iff f suffix :
  Str.endswith (Str.lower f) suffix = true
  <-> exists stem ext, f = stem ++ ext /\ Str.lower ext = suffix.
Proof.
  split.
  - intros H. apply endswith_inv in H. destruct H as [pre H].
    destruct (lower_app_inv _ _ _ H) as (x & y & -> & _ & Hy). eauto.
  - intros (stem & ext & -> & <-). rewrite lower_app. apply endswith_app.
Qed.

(** X3: a file is a page image exactly when its name ends in [.png], [.jpg]
    or [.jpeg] in any mix of upper and lower case, and an archive exactly
    when its name ends so in [.cbz]. What comes before the ending does not
    matter and may be empty. *)
Theorem names_by_ending f :
  (is_image f = true
   <-> exists stem ext,
        f = stem ++ ext /\ In (Str.lower ext) VALID_IMAGE_EXTENSIONS)
  /\ (is_cbz f = true
      <-> exists stem ext, f = stem ++ ext /\ Str.lower ext = ".cbz").
Proof.
  split; [|apply lower_endswith_iff].
  unfold is_image, Str.endswith_any. rewrite existsb_exists. split.
  - intros (suffix & Hin & H). apply lower_endswith_iff in H.
    destruct H as (stem & ext & -> & <-). eauto.
  - intros (stem & ext & -> & Hin). exists (Str.lower ext).
    split; [exact Hin|]. apply lower_endswith_iff. eauto.
Qed.

(** ** More about the book *)

#[local] Open Scope list_scope.

Lemma add_page_metadata root book f :
  identifier (add_page root book f) = identifier book
  /\ title (add_page root book f) = title book
  /\ language (add_page root book f) = language book
  /\ authors (add_page root book f) = authors book.
Proof. destruct f. repeat split. Qed.

Lemma add_pages_metadata e book :
  identifier (add_pages book e) = identifier book
  /\ title (add_pages book e) = title book
  /\ language (add_pages book e) = language book
  /\ authors (add_pages book e) = authors book.
Proof.
  destruct e as [[root dirs] files]. unfold add_pages.
  generalize (sorted_files files) as l. intros l. revert book.
  induction l as [|f l IH]; intros book; cbn [fold_left]; [repeat split|].
  destruct (is_image (fst f)); [|apply IH].
  destruct (IH (add_page root book f)) as (H1 & H2 & H3 & H4).
  destruct (add_page_metadata root book f) as (G1 & G2 & G3 & G4).
  rewrite H1, H2, H3, H4, G1, G2, G3, G4. repeat split.
Qed.

(** X4: the identifier, title, language and author of a book do not come
    from the archive: whatever the tree holds, they are [id123456],
    [Converted Images], [en] and [Author], so any two books the script makes
    carry the same identifier. *)
Theorem book_metadata_fixed top t :
  identifier (make_book top t) = "id123456"%string
  /\ title (make_book top t) = "Converted Images"%string
  /\ language (make_book top t) = "en"%string
  /\ authors (make_book top t) = ["Author"%string].
Proof.
  unfold make_book. cbn [identifier title language authors add_item set_toc].
  generalize (os_walk top t) as es. intros es.
  set (b0 := add_author _ _).
  assert (H : forall es b,
             identifier (fold_left add_pages es b) = identifier b
             /\ title (fold_left add_pages es b) = title b
             /\ language (fold_left add_pages es b) = language b
             /\ authors (fold_left add_pages es b) = authors b).
  { clear. induction es as [|e es IH]; intros b; cbn [fold_left];
      [repeat split|].
    destruct (IH (add_pages b e)) as (H1 & H2 & H3 & H4).
    destruct (add_pages_metadata e b) as (G1 & G2 & G3 & G4).
    rewrite H1, H2, H3, H4, G1, G2, G3, G4. repeat split. }
  destruct (H es b0) as (H1 & H2 & H3 & H4).
  rewrite H1, H2, H3, H4. repeat split.
Qed.

Lemma image_items_app l1 l2 :
  image_items (l1 ++ l2) = image_items l1 ++ image_items l2.
Proof.
  induction l1 as [|i l1 IH]; cbn; [reflexivity|].
  destruct i; cbn; now rewrite ?IH.
Qed.

Lemma image_items_pages l :
  image_items (flat_map items_of_page l)
  = map (fun p => (fst p, "image/jpeg"%string, snd p)) l.
Proof. induction l as [|p l IH]; cbn; [reflexivity|]. now rewrite IH. Qed.

(** X5: the items of a book come in pairs, one pair per page in reading
    order: the image under its base name with media type [image/jpeg], then
    the chapter that shows it; the two navigation items come last. So a book
    of [n] pages has [2 n + 2] items, [n] of them images. *)
Theorem book_items_in_pairs top t :
  items (make_book top t)
  = flat_map
      (fun p => [EpubItem (fst p) (fst p) "image/jpeg" (snd p);
                 chapter_of (fst p)])
      (pages top t)
    ++ [EpubNcx; EpubNav]
  /\ spine (make_book top t) = map (fun p => chapter_of (fst p)) (pages top t)
  /\ image_items (items (make_book top t))
     = map (fun p => (fst p, "image/jpeg"%string, snd p)) (pages top t)
  /\ List.length (items (make_book top t))
     = (2 * List.length (spine (make_book top t)) + 2)%nat.
Proof.
  rewrite make_book_items, make_book_spine. split; [reflexivity|].
  split; [reflexivity|]. split.
  - rewrite image_items_app, image_items_pages. cbn. apply app_nil_r.
  - rewrite length_app, length_map. cbn [List.length].
    induction (pages top t) as [|p l IH]; cbn [flat_map List.length app];
      [reflexivity|].
    unfold items_of_page at 1. cbn [List.length app]. lia.
Qed.

(** The pages one directory gives are its image files. *)
Lemma pages_of_entry_perm e :
  (forall f, In f (snd e) -> Str.has_slash (fst f) = false) ->
  Permutation (pages_of_entry e) (filter (fun f => is_image (fst f)) (snd e)).
Proof.
  destruct e as [[root dirs] files]. cbn [snd]. intros H.
  unfold pages_of_entry.
  assert (E : map (fun f : string * blob =>
                     (Path.basename (Path.join root (fst f)), snd f))
                (filter (fun f => is_image (fst f)) (sorted_files files))
              = filter (fun f => is_image (fst f)) (sorted_files files)).
  { rewrite <- (map_id (filter _ (sorted_files files))) at 2.
    apply map_ext_in. intros [name b] Hf. cbn [fst snd].
    rewrite basename_join; [reflexivity|].
    apply filter_In in Hf. destruct Hf as [Hf _].
    apply (H (name, b)).
    eapply Permutation_in; [apply sorted_files_perm|exact Hf]. }
  rewrite E. apply Permutation_filter, sorted_files_perm.
Qed.

Lemma flat_map_perm {A B} (f g : A -> list B) l :
  (forall x, In x l -> Permutation (f x) (g x)) ->
  Permutation (flat_map f l) (flat_map g l).
Proof.
  induction l as [|x l IH]; intros H; cbn; [constructor|].
  apply Permutation_app; [apply H; now left|].
  apply IH. intros y Hy. apply H. now right.
Qed.

Lemma filter_flat_map {A B} (p : B -> bool) (f : A -> list B) l :
  filter p (flat_map f l) = flat_map (fun x => filter p (f x)) l.
Proof.
  induction l as [|x l IH]; cbn; [reflexivity|]. now rewrite filter_app, IH.
Qed.

Lemma tree_images_walk {A} (t : tree A) top :
  tree_images t
  = flat_map (fun e => filter (fun f => is_image (fst f)) (snd e)) (walk top t).
Proof.
  unfold tree_images, tree_files. rewrite filter_flat_map.
  rewrite !flat_map_concat_map. f_equal.
  rewrite <- (map_map snd (fun fs => filter (fun f => is_image (fst f)) fs)).
  rewrite <- (map_map snd (fun fs => filter (fun f => is_image (fst f)) fs)
                (walk top t)).
  now rewrite (walk_files_top t "." top).
Qed.

(** X6: what a book embeds is what the tree holds as page images: every
    image file of the tree, at any depth, is a page exactly once, under its
    base name and with its own bytes, and nothing else is a page. *)
Theorem book_pages_are_tree_images top t :
  wf_tree t = true -> top <> EmptyString ->
  Permutation (pages top t) (tree_images t)
  /\ Permutation (reading_order (make_book top t)) (map fst (tree_images t))
  /\ Permutation (image_items (items (make_book top t)))
       (map (fun f => (fst f, "image/jpeg"%string, snd f)) (tree_images t)).
Proof.
  intros Hwf Htop.
  assert (Hp : Permutation (pages top t) (tree_images t)).
  { rewrite (tree_images_walk t top). unfold pages, os_walk.
    rewrite (proj2 (String.eqb_neq _ _) Htop).
    apply flat_map_perm. intros e He. apply pages_of_entry_perm.
    intros f Hf. apply wf_name_no_slash.
    eapply walk_files_wf; eauto. }
  split; [exact Hp|]. split.
  - rewrite reading_order_pages. now apply Permutation_map.
  - rewrite make_book_items, image_items_app, image_items_pages.
    cbn. rewrite app_nil_r. now apply Permutation_map.
Qed.

Lemma pages_length top t :
  top <> EmptyString ->
  List.length (pages top t) = List.length (tree_images t).
Proof.
  intros Htop. rewrite (tree_images_walk t top). unfold pages, os_walk.
  rewrite (proj2 (String.eqb_neq _ _) Htop).
  induction (walk top t) as [|[[root dirs] files] l IH]; cbn [flat_map];
    [reflexivity|].
  rewrite !length_app, IH. f_equal. unfold pages_of_entry.
  rewrite length_map. apply Permutation_length, Permutation_filter.
  apply sorted_files_perm.
Qed.

(** X7: a tree without page images still makes a book: its spine and its
    table of contents are empty and it holds the two navigation items only.
    With one page image the spine has that page and the table of contents is
    empty. *)
Theorem book_of_few_pages top t :
  top <> EmptyString ->
  (tree_images t = [] ->
   spine (make_book top t) = []
   /\ toc (make_book top t) = []
   /\ items (make_book top t) = [EpubNcx; EpubNav])
  /\ (List.length (tree_images t) = 1%nat ->
      List.length (spine (make_book top t)) = 1%nat
      /\ toc (make_book top t) = []).
Proof.
  intros Htop. pose proof (pages_length top t Htop) as Hl. split.
  - intros H0. rewrite H0 in Hl. cbn in Hl.
    apply length_zero_iff_nil in Hl.
    rewrite make_book_toc, make_book_items, make_book_spine, Hl.
    repeat split.
  - intros H1. rewrite H1 in Hl.
    rewrite make_book_toc, make_book_spine.
    destruct (pages top t) as [|p [|p' l]]; try discriminate. split; reflexivity.
Qed.

(** ** More about one conversion *)

#[local] Open Scope list_scope.



Lemma compress_files_no_images jpeg_writable quality max_height files :
  filter (fun f => is_image (fst f)) files = [] ->
  compress_files jpeg_writable quality max_height files = (files, Ok tt).
Proof.
  induction files as [|[file b] rest IH]; cbn [compress_files filter fst];
    [reflexivity|].
  destruct (is_image file); [discriminate|]. intros H. now rewrite (IH H).
Qed.

Lemma tree_images_Dir {A} (files : list (string * A)) subdirs :
  tree_images (Dir files subdirs)
  = filter (fun f => is_image (fst f)) files
    ++ flat_map (fun dc => tree_images (snd dc)) subdirs.
Proof.
  unfold tree_images. rewrite tree_files_Dir, filter_app, filter_flat_map.
  reflexivity.
Qed.

(** Without page images the normaliser has nothing to do. *)
Lemma compress_tree_no_images jpeg_writable quality max_height t :
  tree_images t = [] ->
  compress_tree jpeg_writable quality max_height t = (t, Ok tt).
Proof.
  induction t as [files subdirs IH] using tree_induction.
  rewrite tree_images_Dir. intros H. apply app_eq_nil in H.
  destruct H as [Hf Hs]. cbn [compress_tree].
  rewrite (compress_files_no_images _ _ _ _ Hf).
  assert (E : compress_subdirs
                (compress_tree jpeg_writable quality max_height) subdirs
              = (subdirs, Ok tt)).
  { induction subdirs as [|[d c] rest IHr]; cbn [compress_subdirs];
      [reflexivity|].
    cbn [flat_map snd] in Hs. apply app_eq_nil in Hs. destruct Hs as [Hc Hr].
    inversion IH as [|? ? Hc' Hrest]; subst. cbn [snd] in Hc'.
    rewrite (Hc' Hc).
    fold (compress_subdirs (compress_tree jpeg_writable quality max_height)).
    now rewrite (IHr Hrest Hr). }
  now rewrite E.
Qed.

Section ConversionMore.

Variable jpeg_writable : string -> bool.
Variable creatable : string -> bool.
Variables cbz_file output_folder relative_path : string.
Variables quality max_height : Z.

Let convert archive :=
  process_cbz jpeg_writable creatable cbz_file archive output_folder quality
    max_height relative_path.
Let dir := Path.join output_folder relative_path.
Let epub_path := Path.join dir (epub_name cbz_file).

(** X8: a page image that cannot be normalised, because it does not decode
    or for any other exception, makes the whole conversion of its archive
    fail: the page is not skipped. No book is written, no output directory
    is made, nothing is printed. A file that does not decode raises
    [UnidentifiedImageError]. *)
Theorem bad_page_fails_conversion t f e0 w :
  In f (tree_files t) ->
  is_image (fst f) = true ->
  compress_image jpeg_writable quality max_height (snd f) = Err e0 ->
  (exists e, snd (convert (Some t) w) = Err e)
  /\ written (fst (convert (Some t) w)) = written w
  /\ made_dirs (fst (convert (Some t) w)) = made_dirs w
  /\ stdout (fst (convert (Some t) w)) = stdout w
  /\ compress_image jpeg_writable quality max_height (Bytes None)
     = Err UnidentifiedImageError.
Proof.
  intros Hin Hi Herr. unfold convert. rewrite process_cbz_outcome.
  destruct (compress_tree jpeg_writable quality max_height t)
    as [t' [[]|e]] eqn:Ht.
  - destruct (compress_tree_ok_all _ _ _ _ _ Ht _ Hin Hi) as [b Hb].
    congruence.
  - cbn. rewrite !app_nil_r. repeat split. now exists e.
Qed.




(** X12: an archive without page images is converted like any other: the
    normaliser leaves the tree as it is, and when the output can be written
    the book is written, with an empty spine. *)
Theorem archive_without_pages_converts t w :
  tree_images t = [] ->
  creatable dir = true ->
  creatable epub_path = true ->
  convert (Some t) w
  = (after_conversion w (with_dir dir (made_dirs w))
       [(epub_path, make_book (tmpname (scratch_count w)) t)]
       [notice epub_path], Ok tt)
  /\ spine (make_book (tmpname (scratch_count w)) t) = []
  /\ items (make_book (tmpname (scratch_count w)) t) = [EpubNcx; EpubNav].
Proof.
  intros H0 Hd Hp. unfold convert. rewrite process_cbz_outcome.
  rewrite (compress_tree_no_images _ _ _ _ H0). cbv zeta.
  fold dir. fold epub_path. rewrite Hd, Hp, orb_true_r.
  split; [reflexivity|].
  assert (Hl : pages (tmpname (scratch_count w)) t = []).
  { apply length_zero_iff_nil. rewrite pages_length, H0; [reflexivity|].
    apply String.eqb_neq. reflexivity. }
  rewrite make_book_items, make_book_spine, Hl. split; reflexivity.
Qed.

End ConversionMore.

(** ** More about the name of the book *)

#[local] Open Scope string_scope.

Lemma splitext_no_extension name :
  Str.has_slash name = false ->
  Str.has_dot (snd (Str.span_dots name)) = false ->
  Path.splitext name = (name, EmptyString).
Proof.
  intros Hs Hd. unfold Path.splitext. rewrite (rsplit_at_no_slash _ Hs).
  destruct (Str.span_dots name) as [dots rest]. cbn [snd] in Hd.
  now rewrite (rsplit_at_no_dot _ Hd).
Qed.

(** X13: the book of an archive named [stem.e] is named [stem.epub]: the
    last extension is replaced, whatever it is and in whatever case, and the
    directory of the archive plays no part. So two archives of one directory
    whose names differ in the extension only, as [vol.cbz] and [vol.CBZ],
    get the same book name. [stem] is any name that is not made of dots
    only. *)
Theorem epub_name_replaces_extension root stem e :
  Str.has_slash stem = false ->
  Str.has_slash e = false ->
  Str.has_dot e = false ->
  snd (Str.span_dots stem) <> EmptyString ->
  epub_name (Path.join root (stem ++ String "." e)) = stem ++ ".epub"
  /\ forall e',
      Str.has_slash e' = false -> Str.has_dot e' = false ->
      epub_name (Path.join root (stem ++ String "." e'))
      = epub_name (Path.join root (stem ++ String "." e)).
Proof.
  intros Hs He Hd Hstem.
  assert (H : forall x,
             Str.has_slash x = false -> Str.has_dot x = false ->
             epub_name (Path.join root (stem ++ String "." x))
             = stem ++ ".epub").
  { intros x Hx Hdx. unfold epub_name. rewrite basename_join.
    - now rewrite splitext_name.
    - rewrite has_slash_app, Hs. cbn. exact Hx. }
  split; [now apply H|]. intros e' He' Hd'. now rewrite !H.
Qed.

(** X14: a name without extension keeps all of it: when nothing but leading
    dots comes before the last dot, as in [.cbz], there is no extension to
    replace and the book is named [.cbz.epub]. *)
Theorem epub_name_without_extension root name :
  Str.has_slash name = false ->
  Str.has_dot (snd (Str.span_dots name)) = false ->
  epub_name (Path.join root name) = name ++ ".epub".
Proof.
  intros Hs Hd. unfold epub_name.
  now rewrite basename_join, splitext_no_extension.
Qed.

(** ** More about the batch *)

#[local] Open Scope list_scope.

Lemma for_each_invariant {A} (P : world -> Prop) (l : list A) body :
  (forall x w, In x l -> P w -> P (fst (body x w))) ->
  forall w, P w -> P (fst (for_each l body w)).
Proof.
  induction l as [|x l IH]; intros Hb w Hw; cbn [for_each]; [exact Hw|].
  unfold bind. pose proof (Hb x w (or_introl eq_refl) Hw) as Hx.
  destruct (body x w) as [w1 [[]|e]]; cbn [fst] in *; [|exact Hx].
  apply IH; [|exact Hx]. intros y w0 Hy. apply Hb. now right.
Qed.


Lemma in_jobs cwd input_folder input job :
  In job (jobs cwd input_folder input) ->
  exists root dirs files f,
    In (root, dirs, files) (os_walk input_folder input)
    /\ In (f, snd (fst job)) files
    /\ is_cbz f = true
    /\ fst (fst job) = Path.join root f
    /\ Path.relpath cwd root input_folder = Ok (snd job).
Proof.
  unfold jobs. intros H. apply in_flat_map in H.
  destruct H as ([[root dirs] files] & He & H). unfold dir_jobs in H.
  destruct (Path.relpath cwd root input_folder) as [rel|] eqn:Hr;
    [|contradiction].
  apply in_map_iff in H. destruct H as ([f a] & <- & Hf).
  apply filter_In in Hf. destruct Hf as [Hf Hc].
  exists root, dirs, files, f. cbn. auto.
Qed.

Lemma walk_in_tree_files {A} (t : tree A) top e f :
  In e (walk top t) -> In f (snd e) -> In f (tree_files t).
Proof.
  intros He Hf. unfold tree_files. apply in_flat_map.
  assert (Hs : In (snd e) (map snd (walk "." t))).
  { rewrite (walk_files_top t "." top). now apply in_map. }
  apply in_map_iff in Hs. destruct Hs as (e' & E & He').
  exists e'. split; [exact He'|]. now rewrite E.
Qed.

Lemma os_walk_in_tree_files {A} (t : tree A) top e f :
  In e (os_walk top t) -> In f (snd e) -> In f (tree_files t).
Proof.
  unfold os_walk. destruct (String.eqb top EmptyString); [contradiction|].
  apply walk_in_tree_files.
Qed.

Section BatchMore.

Variable cwd : string.
Variable jpeg_writable : string -> bool.
Variable creatable : string -> bool.
Variables input_folder output_folder : string.
Variables quality max_height : Z.

Let job := run_job jpeg_writable creatable output_folder quality max_height.
Let batch :=
  process_folder cwd jpeg_writable creatable input_folder output_folder
    quality max_height.

Lemma process_cbz_scratch cbz_file archive relative_path w :
  scratch (fst (process_cbz jpeg_writable creatable cbz_file archive
                  output_folder quality max_height relative_path w))
  = scratch w.
Proof.
  unfold process_cbz. apply with_TemporaryDirectory_cleans. intros name.
  apply preserves_bind; [apply extractall_headed|intros _].
  apply preserves_bind; [apply compress_images_headed|intros _].
  apply preserves_bind; [apply makedirs_headed|intros _].
  apply preserves_bind; [apply create_epub_headed|intros _].
  apply print_headed.
Qed.




(** X15: a batch leaves no temporary directory behind, whether it goes
    through or is ended by an exception: the temporary directories that
    exist afterwards are those that existed before. *)
Theorem batch_leaves_no_scratch input w :
  scratch (fst (batch input w)) = scratch w.
Proof.
  unfold batch. rewrite process_folder_jobs.
  apply (for_each_invariant (fun w0 => scratch w0 = scratch w)); [|reflexivity].
  intros [[cbz_file archive] rel] w0 _ H0. unfold run_job.
  now rewrite process_cbz_scratch.
Qed.

(** X16: an input folder without a file whose name ends in [.cbz], at any
    depth, and so an empty one, gives a batch that does nothing: no
    directory is made, not even the output folder, nothing is written or
    printed, and the batch ends without exception. So does an empty
    [input_folder] argument. *)
Theorem batch_without_archives input w :
  (forall f, In f (tree_files input) -> is_cbz (fst f) = false)
  \/ input_folder = EmptyString ->
  batch input w = (w, Ok tt).
Proof.
  intros H. unfold batch. rewrite process_folder_jobs.
  assert (E : jobs cwd input_folder input = []).
  { destruct H as [H| ->]; [|reflexivity].
    destruct (jobs cwd input_folder input) as [|j l] eqn:Ej; [reflexivity|].
    assert (Hj : In j (jobs cwd input_folder input))
      by (rewrite Ej; now left).
    destruct (in_jobs _ _ _ _ Hj)
      as (root & dirs & files & f & He & Hf & Hc & _).
    pose proof (H _ (os_walk_in_tree_files _ _ (root, dirs, files) _ He Hf))
      as Hn.
    cbn [fst] in Hn. congruence. }
  now rewrite E.
Qed.





End BatchMore.

(** ** The normaliser and the book together *)

#[local] Open Scope list_scope.





Section TogetherMore.

Variable jpeg_writable : string -> bool.
Variable creatable : string -> bool.
Variables quality max_height : Z.


(** X21: [max_height] is not checked: with a value below 1 every image
    higher than it, so every image of positive height, fails, since what is
    asked of the resize is not a positive size; an archive that holds such a
    page image is not converted. *)
Theorem max_height_below_one_fails img :
  max_height < 1 ->
  height img > max_height ->
  (exists e,
      compress_image jpeg_writable quality max_height (Bytes (Some img))
      = Err e)
  /\ forall cbz_file t output_folder relative_path w name,
      In (name, Bytes (Some img)) (tree_files t) ->
      is_image name = true ->
      exists e,
        process_cbz jpeg_writable creatable cbz_file (Some t) output_folder
          quality max_height relative_path w
        = (after_conversion w (made_dirs w) [] [], Err e).
Proof.
  intros Hm Ht.
  assert (He : exists e,
             compress_image jpeg_writable quality max_height
               (Bytes (Some img)) = Err e).
  { rewrite (compress_image_tall _ _ _ _ Ht).
    destruct (new_width img max_height) as [nw|e]; cbn [result_bind];
      [|eauto].
    unfold resize. cbn [fst snd].
    assert (E : (max_height <? 1)%Z = true) by now apply Z.ltb_lt.
    rewrite E, orb_true_r. cbn [result_bind]. eauto. }
  split; [exact He|].
  intros cbz_file t output_folder relative_path w name Hin Hi.
  destruct He as [e0 He]. rewrite process_cbz_outcome.
  destruct (compress_tree jpeg_writable quality max_height t)
    as [t' [[]|e]] eqn:Hc; [|eauto].
  destruct (compress_tree_ok_all _ _ _ _ _ Hc _ Hin Hi) as [b Hb].
  cbn [snd] in Hb. congruence.
Qed.

End TogetherMore.

(** ** The further properties on example inputs *)

#[local] Open Scope list_scope.


Lemma book_pages_are_tree_images_witness :
  wf_tree nested_pages = true
  /\ "/tmp/tmp0"%string <> EmptyString
  /\ Permutation (pages "/tmp/tmp0" nested_pages) (tree_images nested_pages)
  /\ Permutation (reading_order (make_book "/tmp/tmp0" nested_pages))
       (map fst (tree_images nested_pages))
  /\ Permutation (image_items (items (make_book "/tmp/tmp0" nested_pages)))
       (map (fun f => (fst f, "image/jpeg"%string, snd f))
          (tree_images nested_pages)).
Proof.
  assert (H1 : wf_tree nested_pages = true) by reflexivity.
  assert (H2 : "/tmp/tmp0"%string <> EmptyString) by discriminate.
  split; [exact H1|]. split; [exact H2|].
  exact (book_pages_are_tree_images "/tmp/tmp0" nested_pages H1 H2).
Defined.

Lemma book_of_few_pages_witness :
  "/tmp/tmp0"%string <> EmptyString
  /\ tree_images no_pages = []
  /\ List.length (tree_images rgba_page) = 1%nat
  /\ (spine (make_book "/tmp/tmp0" no_pages) = []
      /\ toc (make_book "/tmp/tmp0" no_pages) = []
      /\ items (make_book "/tmp/tmp0" no_pages) = [EpubNcx; EpubNav])
  /\ List.length (spine (make_book "/tmp/tmp0" rgba_page)) = 1%nat
  /\ toc (make_book "/tmp/tmp0" rgba_page) = [].
Proof.
  assert (H1 : "/tmp/tmp0"%string <> EmptyString) by discriminate.
  assert (H2 : tree_images no_pages = []) by reflexivity.
  assert (H3 : List.length (tree_images rgba_page) = 1%nat) by reflexivity.
  split; [exact H1|]. split; [exact H2|]. split; [exact H3|]. split.
  - exact (proj1 (book_of_few_pages "/tmp/tmp0" no_pages H1) H2).
  - exact (proj2 (book_of_few_pages "/tmp/tmp0" rgba_page H1) H3).
Defined.

Lemma bad_page_fails_conversion_witness :
  In ("002.png"%string, Bytes None) (tree_files one_broken)
  /\ is_image "002.png" = true
  /\ compress_image RAWMODE 80 1024 (Bytes None) = Err UnidentifiedImageError
  /\ (exists e,
        snd (process_cbz RAWMODE always "/in/v.cbz" (Some one_broken) "/out"
               80 1024 "." empty_world) = Err e)
  /\ written (fst (process_cbz RAWMODE always "/in/v.cbz" (Some one_broken)
                     "/out" 80 1024 "." empty_world)) = []
  /\ made_dirs (fst (process_cbz RAWMODE always "/in/v.cbz" (Some one_broken)
                       "/out" 80 1024 "." empty_world)) = []
  /\ stdout (fst (process_cbz RAWMODE always "/in/v.cbz" (Some one_broken)
                    "/out" 80 1024 "." empty_world)) = [].
Proof.
  assert (H1 : In ("002.png"%string, Bytes None) (tree_files one_broken))
    by (vm_compute; right; right; left; reflexivity).
  assert (H2 : is_image "002.png" = true) by reflexivity.
  assert (H3 : compress_image RAWMODE 80 1024 (Bytes None)
               = Err UnidentifiedImageError) by reflexivity.
  destruct (bad_page_fails_conversion RAWMODE always "/in/v.cbz" "/out" "."
              80 1024 one_broken ("002.png"%string, Bytes None)
              UnidentifiedImageError empty_world H1 H2 H3)
    as (He & Hw & Hd & Hs & _).
  split; [exact H1|]. split; [exact H2|]. split; [exact H3|].
  split; [exact He|]. split; [exact Hw|]. split; [exact Hd|exact Hs].
Defined.



Lemma archive_without_pages_converts_witness :
  tree_images no_pages = []
  /\ always "/out/." = true
  /\ always "/out/./v.epub" = true
  /\ process_cbz RAWMODE always "/in/v.cbz" (Some no_pages) "/out" 80 1024 "."
       empty_world
     = (after_conversion empty_world ["/out/."%string]
          [("/out/./v.epub"%string, make_book "/tmp/tmp0" no_pages)]
          [notice "/out/./v.epub"], Ok tt)
  /\ spine (make_book "/tmp/tmp0" no_pages) = []
  /\ items (make_book "/tmp/tmp0" no_pages) = [EpubNcx; EpubNav].
Proof.
  assert (H1 : tree_images no_pages = []) by reflexivity.
  assert (H2 : always "/out/." = true) by reflexivity.
  assert (H3 : always "/out/./v.epub" = true) by reflexivity.
  split; [exact H1|]. split; [exact H2|]. split; [exact H3|].
  exact (archive_without_pages_converts RAWMODE always "/in/v.cbz" "/out" "."
           80 1024 no_pages empty_world H1 H2 H3).
Defined.

Lemma epub_name_replaces_extension_witness :
  Str.has_slash "vol1" = false
  /\ Str.has_slash "cbz" = false
  /\ Str.has_dot "cbz" = false
  /\ snd (Str.span_dots "vol1") <> EmptyString
  /\ epub_name "/in/seriesA/vol1.cbz" = "vol1.epub"%string
  /\ forall e',
      Str.has_slash e' = false -> Str.has_dot e' = false ->
      epub_name (Path.join "/in/seriesA" ("vol1" ++ String "." e')%string)
      = epub_name "/in/seriesA/vol1.cbz".
Proof.
  assert (H1 : Str.has_slash "vol1" = false) by reflexivity.
  assert (H2 : Str.has_slash "cbz" = false) by reflexivity.
  assert (H3 : Str.has_dot "cbz" = false) by reflexivity.
  assert (H4 : snd (Str.span_dots "vol1") <> EmptyString)
    by (vm_compute; discriminate).
  split; [exact H1|]. split; [exact H2|]. split; [exact H3|].
  split; [exact H4|].
  exact (epub_name_replaces_extension "/in/seriesA" "vol1" "cbz" H1 H2 H3 H4).
Defined.

Lemma epub_name_without_extension_witness :
  Str.has_slash ".cbz" = false
  /\ Str.has_dot (snd (Str.span_dots ".cbz")) = false
  /\ is_cbz ".cbz" = true
  /\ epub_name "/in/.cbz" = ".cbz.epub"%string.
Proof.
  assert (H1 : Str.has_slash ".cbz" = false) by reflexivity.
  assert (H2 : Str.has_dot (snd (Str.span_dots ".cbz")) = false)
    by reflexivity.
  split; [exact H1|]. split; [exact H2|]. split; [reflexivity|].
  exact (epub_name_without_extension "/in" ".cbz" H1 H2).
Defined.

Lemma batch_without_archives_witness :
  ((forall f, In f (tree_files no_archives) -> is_cbz (fst f) = false)
   \/ "/in"%string = EmptyString)
  /\ process_folder "/home/u" RAWMODE always "/in" "/out" 80 1024 no_archives
       empty_world
     = (empty_world, Ok tt).
Proof.
  assert (H : (forall f, In f (tree_files no_archives) ->
                         is_cbz (fst f) = false)
              \/ "/in"%string = EmptyString).
  { left. intros f Hf. vm_compute in Hf.
    destruct Hf as [<-|[<-|[]]]; reflexivity. }
  split; [exact H|].
  exact (batch_without_archives "/home/u" RAWMODE always "/in" "/out" 80 1024
           no_archives empty_world H).
Defined.




Lemma max_height_below_one_fails_witness :
  0 < 1
  /\ height palette_page > 0
  /\ compress_image RAWMODE 80 0 (Bytes (Some palette_page))
     = Err (ValueError "height and width must be > 0")
  /\ (exists e,
        compress_image RAWMODE 80 0 (Bytes (Some palette_page)) = Err e)
  /\ forall cbz_file t output_folder relative_path w name,
      In (name, Bytes (Some palette_page)) (tree_files t) ->
      is_image name = true ->
      exists e,
        process_cbz RAWMODE always cbz_file (Some t) output_folder 80 0
          relative_path w
        = (after_conversion w (made_dirs w) [] [], Err e).
Proof.
  assert (H1 : 0 < 1) by reflexivity.
  assert (H2 : height palette_page > 0) by reflexivity.
  split; [exact H1|]. split; [exact H2|].
  split; [vm_compute; reflexivity|].
  exact (max_height_below_one_fails RAWMODE always 80 0 palette_page H1 H2).
Defined.
